(** * Candidate collector of the H&M recommendation pipeline

    A shallow embedding of [src/retrieval/collector.py] (class
    [RuleCollector]) and the properties of its [collect] method.

    Data frames are lists of rows.  A cell that pandas would show as
    NaN/None is [None]; a present value is [Some v].  Customer and item
    identifiers are integers, scores are rationals (no arithmetic is ever
    done on a score: it is only carried along), method labels and the
    categorical cohort attributes are strings.

    The [item_id] argument of [collect] is the name of the item column;
    the field [r_item] of a row is the cell of that column.

    Tables are taken to carry the columns the collector reads (a table
    lacking one is outside the collector's contract); a column that a row
    does not list reads as null, which is also what [pd.concat] puts there
    when it unions the columns of two frames.

    An id column is an int64 column, and pandas cannot keep a null in one:
    the item column is a float64 column as soon as it holds a null (the
    miss of a left join, or a null that a table brings), and then every id
    in it is the nearest double, which is another number beyond 2^53.  A
    column keeps its dtype when rows are taken from it, so the item column
    of what is made from a table with a null item is float64 even where
    the row with the null is left out.  The customer column of the frames
    made from [customer_list] has the dtype of [np.array(customer_list)],
    which is float64 for the empty list.  [pd.concat] gives a column the
    common dtype of its parts.  The frames of the model hold the ids as
    the column stores them ([as_stored]). *)

From Stdlib Require Import ZArith QArith String Bool Arith Lia Sorted List.
Import ListNotations.

Close Scope Q_scope.
Local Open Scope string_scope.
Local Open Scope nat_scope.
Local Open Scope list_scope.

(** ** Cells, rows, tables *)

Definition customer := Z.
Definition item := Z.
Definition cell (A : Type) := option A.

Record row := mkRow {
  r_customer : cell customer;            (* column "customer_id" *)
  r_item     : cell item;                (* column [item_id]     *)
  r_score    : cell Q;                   (* column "score"       *)
  r_method   : cell string;              (* column "method"      *)
  r_cats     : list (string * cell string)  (* every other column *)
}.

Record user_row := mkUser {
  u_customer : cell customer;
  u_cats     : list (string * cell string)
}.

(** [data] is a dict; the collector reads its "user" entry only. *)
Record dataset := mkData { user : list user_row }.

Module Table.

(** Reading a categorical column of a row. *)
Fixpoint lookup (c : string) (cols : list (string * cell string)) : cell string :=
  match cols with
  | [] => None
  | (c', v) :: rest => if String.eqb c c' then v else lookup c rest
  end.

(** [df[[*cols]]] on the categorical part. *)
Definition select (cols : list string) (cs : list (string * cell string))
  : list (string * cell string) :=
  map (fun c => (c, lookup c cs)) cols.

(** The join key of a row: its cells in the columns [cols].  pandas
    matches a null key with a null key, so keys are compared as they are. *)
Definition key (cols : list string) (cs : list (string * cell string))
  : list (cell string) :=
  map (fun c => lookup c cs) cols.

Definition cell_eqb (a b : cell string) : bool :=
  match a, b with
  | Some x, Some y => String.eqb x y
  | None, None => true
  | _, _ => false
  end.

Fixpoint key_eqb (k1 k2 : list (cell string)) : bool :=
  match k1, k2 with
  | [], [] => true
  | a :: k1', b :: k2' => cell_eqb a b && key_eqb k1' k2'
  | _, _ => false
  end.

(** [Series.isin(values)]. *)
Definition isin (c : cell item) (values : list item) : bool :=
  match c with
  | Some i => existsb (Z.eqb i) values
  | None => false
  end.

(** [np.repeat(a, k)]: every element [k] times in a row. *)
Definition np_repeat {A} (a : list A) (k : nat) : list A :=
  flat_map (fun x => repeat x k) a.

(** [np.tile(a, n)]: the whole array [n] times. *)
Fixpoint np_tile {A} (a : list A) (n : nat) : list A :=
  match n with
  | O => []
  | S n' => a ++ np_tile a n'
  end.

(** [np.arange(k)]. *)
Definition np_arange (k : nat) : list nat := seq 0 k.

(** [df.iloc[positions]]; [None] is pandas' IndexError. *)
Fixpoint iloc {A} (df : list A) (positions : list nat) : option (list A) :=
  match positions with
  | [] => Some []
  | p :: ps =>
      match nth_error df p, iloc df ps with
      | Some r, Some rs => Some (r :: rs)
      | _, _ => None
      end
  end.

(** [left.merge(right, how="left")] with the match given as a boolean:
    the rows of [left] in their order, each with its matches in [right]
    in the order of [right], or once with nothing when it has none. *)
Definition left_merge {L R} (matches : L -> R -> bool)
           (left : list L) (right : list R) : list (L * option R) :=
  flat_map (fun l =>
              match filter (matches l) right with
              | [] => [(l, None)]
              | ms => map (fun r => (l, Some r)) ms
              end) left.

(** An int64 value as a float64 column stores it: itself up to 2^53 in
    absolute value, else the nearest multiple of its unit in the last
    place, ties to the even one. *)
Definition round_even (a e : Z) : Z :=
  let p := (2 ^ e)%Z in
  let q := (a / p)%Z in
  let r := (a mod p)%Z in
  if (2 * r <? p)%Z then (q * p)%Z
  else if (p <? 2 * r)%Z then ((q + 1) * p)%Z
  else if Z.even q then (q * p)%Z
  else ((q + 1) * p)%Z.

Definition to_float (z : Z) : Z :=
  let a := Z.abs z in
  if (Z.log2 a <=? 52)%Z then z
  else (Z.sgn z * round_even a (Z.log2 a - 52))%Z.

Definition float_item (r : row) : row :=
  mkRow (r_customer r) (option_map to_float (r_item r))
        (r_score r) (r_method r) (r_cats r).

Definition float_customer (r : row) : row :=
  mkRow (option_map to_float (r_customer r)) (r_item r)
        (r_score r) (r_method r) (r_cats r).

Definition has_null_item (df : list row) : bool :=
  existsb (fun r => match r_item r with
                    | None => true
                    | Some _ => false
                    end) df.

(** A row as columns of the given dtypes store it. *)
Definition stored_row (customer_float64 item_float64 : bool) (r : row) : row :=
  let r := if customer_float64 then float_customer r else r in
  if item_float64 then float_item r else r.

(** The rows of a frame as its columns store them.  The customer column
    is float64 when [cf] says so; the item column is float64 when [itf]
    says so or when it holds a null. *)
Definition as_stored (cf itf : bool) (df : list row) : list row :=
  map (stored_row cf (itf || has_null_item df)) df.

(** A frame of the loop: its rows and what is known of the dtype of its
    id columns.  [item_float64] tells of a null in the table that the
    frame was made from. *)
Record frame := mkFrame {
  customer_float64 : bool;
  item_float64 : bool;
  frame_rows : list row
}.

(** [pd.concat([acc, df], ignore_index=True)]; a [None] entry is dropped.
    The rows follow one another and every column takes the common dtype. *)
Definition concat (acc : option frame) (df : frame) : frame :=
  match acc with
  | None =>
      mkFrame (customer_float64 df) (item_float64 df)
              (as_stored (customer_float64 df) (item_float64 df) (frame_rows df))
  | Some a =>
      mkFrame (customer_float64 a || customer_float64 df)
              (item_float64 a || item_float64 df)
              (as_stored (customer_float64 a || customer_float64 df)
                         (item_float64 a || item_float64 df)
                         (frame_rows a ++ frame_rows df))
  end.

(** Sorted distinct keys, as [groupby] (sort=True) orders its groups. *)
Fixpoint insert_key (k : Z) (ks : list Z) : list Z :=
  match ks with
  | [] => [k]
  | h :: t =>
      if (k <? h)%Z then k :: ks
      else if (k =? h)%Z then ks
      else h :: insert_key k t
  end.

Definition sorted_keys (ks : list Z) : list Z :=
  fold_right insert_key [] ks.

End Table.

(** ** Python values, exceptions and the effect of [retrieve()] *)

(** The objects a caller may put in [rules].  Each recognised rule is
    given by the table its [retrieve()] returns (the rule classes live in
    [rules.py], whose only part the collector uses is that call and
    [cat_cols]).  [NotARule] is any other object; it may or may not have a
    [retrieve] method of its own. *)
Inductive py_rule :=
| GlobalRetrieveRule (table : list row)
| PersonalRetrieveRule (table : list row)
| UserGroupRetrieveRule (cat_cols : list string) (table : list row)
| NotARule (retrieve : option (list row)).

Inductive py_filter :=
| FilterRule (items : list item)
| NotAFilter (retrieve : option (list item)).

Inductive exn :=
| TypeError (msg : string)
| AttributeError (msg : string)
| UnboundLocalError (msg : string)
| IndexError
| ValueError.

(** What was called, in call order. *)
Inductive event :=
| FilterRetrieve (f : py_filter)
| RuleRetrieve (r : py_rule).

Inductive outcome (A : Type) :=
| Returns (a : A)
| Raises (e : exn).
Arguments Returns {A} a.
Arguments Raises {A} e.

(** Computations that may raise and that log the [retrieve()] calls. *)
Definition M (A : Type) := list event -> outcome A * list event.

Definition ret {A} (a : A) : M A := fun t => (Returns a, t).
Definition raise {A} (e : exn) : M A := fun t => (Raises e, t).
Definition bind {A B} (m : M A) (k : A -> M B) : M B :=
  fun t => match m t with
           | (Returns a, t') => k a t'
           | (Raises e, t') => (Raises e, t')
           end.
Definition log (e : event) : M unit := fun t => (Returns tt, t ++ [e]).

Notation "x <- m ;; k" := (bind m (fun x => k))
  (at level 61, m at next level, right associativity).
Notation "m ;;; k" := (bind m (fun _ => k))
  (at level 61, right associativity).

(** What [collect] hands back: [None], the flat frame, or the frame of one
    item list per customer.  A cell of the latter is a Python list (whose
    entries may be NaN) or null. *)
Inductive py_value :=
| PyNone
| Candidates (df : list row)
| Compressed (df : list (customer * cell (list (cell item)))).

(** ** The collector *)

Module RuleCollector.
Import Table.

(** [rule.retrieve()] and [filter.retrieve()].  An object without the
    method raises AttributeError and nothing is called. *)
Definition rule_retrieve (rule : py_rule) : M (list row) :=
  match rule with
  | GlobalRetrieveRule t
  | PersonalRetrieveRule t
  | UserGroupRetrieveRule _ t
  | NotARule (Some t) => log (RuleRetrieve rule) ;;; ret t
  | NotARule None => raise (AttributeError "retrieve")
  end.

Definition filter_retrieve (f : py_filter) : M (list item) :=
  match f with
  | FilterRule l
  | NotAFilter (Some l) => log (FilterRetrieve f) ;;; ret l
  | NotAFilter None => raise (AttributeError "retrieve")
  end.

(** [_check_rule] and [_check_filter]: the isinstance tests. *)
Fixpoint _check_rule (rules : list py_rule) : M unit :=
  match rules with
  | [] => ret tt
  | NotARule _ :: _ =>
      raise (TypeError "Rule must be `PersonalRetrieveRule` or `GlobalRetrieveRule`")
  | _ :: rest => _check_rule rest
  end.

Fixpoint _check_filter (filters : list py_filter) : M unit :=
  match filters with
  | [] => ret tt
  | NotAFilter _ :: _ => raise (TypeError "Filter must be `FilterRule`")
  | _ :: rest => _check_filter rest
  end.

(** [for filter in filters: rm_items += filter.retrieve()]. *)
Fixpoint remove_items (filters : list py_filter) (rm_items : list item)
  : M (list item) :=
  match filters with
  | [] => ret rm_items
  | f :: rest =>
      l <- filter_retrieve f ;;
      remove_items rest (rm_items ++ l)
  end.

(** [items.loc[~items[item_id].isin(rm_items)].reset_index(drop=True)]. *)
Definition drop_removed (rm_items : list item) (items : list row) : list row :=
  filter (fun r => negb (isin (r_item r) rm_items)) items.

Definition with_customer (c : customer) (r : row) : row :=
  mkRow (Some c) (r_item r) (r_score r) (r_method r) (r_cats r).

(** [tmp_df["customer_id"] = tmp_user]: positional, and a ValueError
    ([None]) when the lengths differ. *)
Fixpoint set_customer_id (df : list row) (values : list customer)
  : option (list row) :=
  match df, values with
  | [], [] => Some []
  | r :: df', v :: vs =>
      option_map (cons (with_customer v r)) (set_customer_id df' vs)
  | _, _ => None
  end.

(** The Global branch: repeat the customers, tile the item positions. *)
Definition broadcast (customer_list : list customer) (items : list row)
  : M (list row) :=
  let num_item := length items in
  let num_user := length customer_list in
  let tmp_user := np_repeat customer_list num_item in
  match iloc items (np_tile (np_arange num_item) num_user) with
  | None => raise IndexError
  | Some tmp_df =>
      match set_customer_id tmp_df tmp_user with
      | None => raise ValueError
      | Some tmp_df => ret tmp_df
      end
  end.

(** The UserGroup branch.  [cat_cols] is taken to be non-empty, as a
    cohort rule has it. *)
Definition customer_matches (c : customer) (u : user_row) : bool :=
  match u_customer u with
  | Some c' => (c =? c')%Z
  | None => false
  end.

Definition cohort_of (p : customer * option user_row) : list (string * cell string) :=
  match snd p with
  | Some u => u_cats u
  | None => []
  end.

Definition cohort_matches (cat_cols : list string)
           (p : customer * option user_row) (r : row) : bool :=
  key_eqb (key cat_cols (cohort_of p)) (key cat_cols (r_cats r)).

(** [tmp_df[["customer_id", item_id, "score", "method"]]], row by row. *)
Definition project (p : customer * option user_row * option row) : row :=
  match snd p with
  | Some r => mkRow (Some (fst (fst p))) (r_item r) (r_score r) (r_method r) []
  | None => mkRow (Some (fst (fst p))) None None None []
  end.

(** The two left merges.  A miss of the second one puts a null in the
    item column, which makes it a float64 column; it is one from the start
    when the item rows hold a null. *)
Definition group_join (data : dataset) (customer_list : list customer)
           (cat_cols : list string) (items : list row) : list row :=
  let user_tab :=
    map (fun u => mkUser (u_customer u) (select cat_cols (u_cats u))) (user data) in
  let tmp_df := customer_list in
  let tmp_df := left_merge customer_matches tmp_df user_tab in
  let tmp_df := left_merge (cohort_matches cat_cols) tmp_df items in
  as_stored false (has_null_item items) (map project tmp_df).

(** One turn of the loop over [rules], up to the [pd.concat].  [tmp_df]
    is the local of the previous turn: a rule that is none of the three
    classes leaves it as it was, or unbound in the first turn. *)
Definition normalize (data : dataset) (customer_list : list customer)
           (rule : py_rule) (items : list row) (tmp_df : option (list row))
  : M (list row) :=
  match rule with
  | GlobalRetrieveRule _ => broadcast customer_list items
  | PersonalRetrieveRule _ => ret items
  | UserGroupRetrieveRule cat_cols _ =>
      ret (group_join data customer_list cat_cols items)
  | NotARule _ =>
      match tmp_df with
      | Some df => ret df
      | None => raise (UnboundLocalError "tmp_df")
      end
  end.

(** The dtype of the customer column of [tmp_df]: that of
    [np.array(customer_list)], float64 for the empty list, in the frames
    that take the column from it; the integer ids of its table for a
    Personal rule. *)
Definition array_is_float (customer_list : list customer) : bool :=
  match customer_list with
  | [] => true
  | _ :: _ => false
  end.

Definition customer_dtype (customer_list : list customer) (rule : py_rule)
           (tmp_df : option frame) : bool :=
  match rule with
  | GlobalRetrieveRule _ | UserGroupRetrieveRule _ _ => array_is_float customer_list
  | PersonalRetrieveRule _ => false
  | NotARule _ =>
      match tmp_df with
      | Some df => customer_float64 df
      | None => false
      end
  end.

(** The dtype of the item column of [tmp_df], as far as the rows of
    [tmp_df] do not show it: float64 when the item rows hold a null. *)
Definition item_dtype (rule : py_rule) (items : list row)
           (tmp_df : option frame) : bool :=
  match rule with
  | NotARule _ =>
      match tmp_df with
      | Some df => item_float64 df
      | None => false
      end
  | _ => has_null_item items
  end.

Fixpoint retrieve_loop (data : dataset) (customer_list : list customer)
         (rm_items : list item) (rules : list py_rule)
         (pred_df tmp_df : option frame) : M (option frame) :=
  match rules with
  | [] => ret pred_df
  | rule :: rest =>
      items <- rule_retrieve rule ;;
      tmp <- normalize data customer_list rule (drop_removed rm_items items)
                       (option_map frame_rows tmp_df) ;;
      let tmp := mkFrame (customer_dtype customer_list rule tmp_df)
                         (item_dtype rule (drop_removed rm_items items) tmp_df)
                         tmp in
      retrieve_loop data customer_list rm_items rest
                    (Some (concat pred_df tmp)) (Some tmp)
  end.

(** [pred_df.groupby("customer_id")[item_id].apply(list).reset_index()]:
    rows with a null customer are left out, the groups come in key order,
    and a group lists its item cells, nulls included, in row order. *)
Definition customer_is (c : customer) (r : row) : bool :=
  match r_customer r with
  | Some c' => (c =? c')%Z
  | None => false
  end.

Definition customers_of (df : list row) : list customer :=
  flat_map (fun r => match r_customer r with
                     | Some c => [c]
                     | None => []
                     end) df.

Definition items_of (c : customer) (df : list row) : list (cell item) :=
  map r_item (filter (customer_is c) df).

Definition groupby_apply_list (df : list row)
  : list (customer * list (cell item)) :=
  map (fun c => (c, items_of c df)) (sorted_keys (customers_of df)).

Definition isna {A} (c : cell A) : bool :=
  match c with
  | None => true
  | Some _ => false
  end.

(** [output_df.loc[mask, item_id] = values]: the masked cells take the
    values in turn; a ValueError ([None]) when the counts differ. *)
Fixpoint loc_assign {A} (df : list (customer * cell A)) (mask : list bool)
         (values : list A) : option (list (customer * cell A)) :=
  match df, mask with
  | [], [] =>
      match values with
      | [] => Some []
      | _ :: _ => None
      end
  | (c, x) :: df', b :: mask' =>
      if b then
        match values with
        | v :: vs => option_map (cons (c, Some v)) (loc_assign df' mask' vs)
        | [] => None
        end
      else option_map (cons (c, x)) (loc_assign df' mask' values)
  | _, _ => None
  end.

Definition compress_df (customer_list : list customer) (pred_df : list row)
  : M py_value :=
  let pred_df := groupby_apply_list pred_df in
  let output_df := customer_list in
  let output_df :=
    map (fun p => (fst p, option_map snd (snd p)))
        (left_merge (fun c g => (c =? fst g)%Z) output_df pred_df) in
  let mask := map (fun p => isna (snd p)) output_df in
  let count := length (filter (fun b => b) mask) in
  match loc_assign output_df mask (repeat [] count) with
  | None => raise ValueError
  | Some output_df => ret (Compressed output_df)
  end.

Definition collect (data : dataset) (customer_list : list customer)
           (rules : list py_rule) (filters : option (list py_filter))
           (compress : bool) : M py_value :=
  _check_rule rules ;;;
  filters <- match filters with
             | Some fs => _check_filter fs ;;; ret fs
             | None => ret []
             end ;;
  rm_items <- remove_items filters [] ;;
  pred_df <- retrieve_loop data customer_list rm_items rules None None ;;
  if compress then
    match pred_df with
    | None => raise (AttributeError "'NoneType' object has no attribute 'groupby'")
    | Some df => compress_df customer_list (frame_rows df)
    end
  else
    ret (match pred_df with
         | None => PyNone
         | Some df => Candidates (frame_rows df)
         end).

End RuleCollector.

(** ** What the collector computes, as plain functions *)

Module Summary.
Import Table RuleCollector.

(** The isinstance tests of [_check_rule] and [_check_filter]. *)
Definition is_rule (r : py_rule) : bool :=
  match r with
  | NotARule _ => false
  | _ => true
  end.

Definition is_filter (f : py_filter) : bool :=
  match f with
  | NotAFilter _ => false
  | FilterRule _ => true
  end.

(** [filters], with the default [None] read as the empty list. *)
Definition filters_of (filters : option (list py_filter)) : list py_filter :=
  match filters with
  | Some fs => fs
  | None => []
  end.

(** What [filter.retrieve()] returns. *)
Definition filter_items (f : py_filter) : list item :=
  match f with
  | FilterRule l => l
  | NotAFilter (Some l) => l
  | NotAFilter None => []
  end.

(** The exclusion list that the filters add up to. *)
Definition exclusion (filters : option (list py_filter)) : list item :=
  flat_map filter_items (filters_of filters).

(** Every customer paired with every item row, customer by customer. *)
Definition cross (customer_list : list customer) (items : list row) : list row :=
  flat_map (fun c => map (with_customer c) items) customer_list.

(** The table a recognised rule adds to the accumulator. *)
Definition contribution (data : dataset) (customer_list : list customer)
           (rm_items : list item) (rule : py_rule) : list row :=
  match rule with
  | GlobalRetrieveRule t => cross customer_list (drop_removed rm_items t)
  | PersonalRetrieveRule t => drop_removed rm_items t
  | UserGroupRetrieveRule cat_cols t =>
      group_join data customer_list cat_cols (drop_removed rm_items t)
  | NotARule _ => []
  end.

(** The tables of the rules, one after the other. *)
Definition tables (data : dataset) (customer_list : list customer)
           (rm_items : list item) (rules : list py_rule) : list row :=
  flat_map (contribution data customer_list rm_items) rules.

(** The table that [rule.retrieve()] returns. *)
Definition table_of (rule : py_rule) : list row :=
  match rule with
  | GlobalRetrieveRule t | PersonalRetrieveRule t | UserGroupRetrieveRule _ t => t
  | NotARule (Some t) => t
  | NotARule None => []
  end.

(** Some rule's table holds a null item after the filter. *)
Definition float_items (rm_items : list item) (rules : list py_rule) : bool :=
  existsb (fun rule => has_null_item (drop_removed rm_items (table_of rule))) rules.

(** The customer column of the accumulated frame is float64: there is no
    target customer and some rule takes its customers from the targets. *)
Definition float_targets (customer_list : list customer) (rules : list py_rule)
  : bool :=
  existsb (fun rule => customer_dtype customer_list rule None) rules.

(** The accumulated frame: the tables of the rules, one after the other,
    as the columns of the frame store them. *)
Definition combined (data : dataset) (customer_list : list customer)
           (rm_items : list item) (rules : list py_rule) : list row :=
  as_stored (float_targets customer_list rules)
            (float_items rm_items rules)
            (tables data customer_list rm_items rules).

(** The loop over [rules], once every [retrieve()] has returned. *)
Definition accumulate (data : dataset) (customer_list : list customer)
           (rm_items : list item) (rules : list py_rule) (pred_df : option frame)
  : option frame :=
  fold_left (fun acc rule =>
               Some (concat acc
                            (mkFrame (customer_dtype customer_list rule None)
                                     (has_null_item
                                        (drop_removed rm_items (table_of rule)))
                                     (contribution data customer_list rm_items rule))))
            rules pred_df.

(** Customer [c] is the customer of some row of the frame. *)
Definition has_rows (c : customer) (df : list row) : bool :=
  existsb (Z.eqb c) (customers_of df).

(** The compressed frame: the target customers in their order, each with
    the item cells of its rows in the accumulated frame. *)
Definition compressed (customer_list : list customer) (df : list row)
  : list (customer * cell (list (cell item))) :=
  map (fun c => (c, Some (items_of c df))) customer_list.

(** Every rule and every filter passes its isinstance test. *)
Definition all_conform (rules : list py_rule) (filters : option (list py_filter))
  : bool :=
  forallb is_rule rules && forallb is_filter (filters_of filters).

(** The [retrieve()] calls of a whole run: the filters, then the rules. *)
Definition calls (rules : list py_rule) (filters : option (list py_filter))
  : list event :=
  map FilterRetrieve (filters_of filters) ++ map RuleRetrieve rules.

(** [data["user"][[*rule.cat_cols, "customer_id"]]]. *)
Definition user_table (data : dataset) (cat_cols : list string) : list user_row :=
  map (fun u => mkUser (u_customer u) (select cat_cols (u_cats u))) (user data).

(** The rows of the user table found for one target customer, or the
    all-null row when the table does not have the customer. *)
Definition cohorts (data : dataset) (cat_cols : list string) (c : customer)
  : list (customer * option user_row) :=
  left_merge customer_matches [c] (user_table data cat_cols).

(** The rows that the cohort join makes for one target customer. *)
Definition group_rows (data : dataset) (cat_cols : list string)
           (items : list row) (c : customer) : list row :=
  map project (left_merge (cohort_matches cat_cols) (cohorts data cat_cols c) items).

(** No item row carries the cohort of customer [c]. *)
Definition misses (data : dataset) (cat_cols : list string)
           (items : list row) (c : customer) : bool :=
  forallb (fun p => forallb (fun r => negb (cohort_matches cat_cols p r)) items)
          (cohorts data cat_cols c).

(** The row of a customer whose cohort has no item row. *)
Definition null_row (c : customer) : row := mkRow (Some c) None None None [].

(** The item cell of the row holds item [i]. *)
Definition item_is (i : item) (r : row) : bool :=
  match r_item r with
  | Some i' => (i =? i')%Z
  | None => false
  end.

(** How many rows of a frame pair customer [c] with item [i]. *)
Definition pair_count (c : customer) (i : item) (df : list row) : nat :=
  length (filter (fun r => customer_is c r && item_is i r) df).

Definition cell_item_dec (a b : cell item) : {a = b} + {a <> b}.
Proof. decide equality. apply Z.eq_dec. Defined.

(** The row belongs to a target customer. *)
Definition targets (customer_list : list customer) (r : row) : bool :=
  match r_customer r with
  | Some c => existsb (Z.eqb c) customer_list
  | None => false
  end.

(** Every target customer is in at most one row of the user table, and
    each cohort found for it is the cohort of at most one item row. *)
Definition one_row_each (data : dataset) (cat_cols : list string)
           (items : list row) (customer_list : list customer) : bool :=
  forallb (fun c =>
             (length (filter (customer_matches c) (user_table data cat_cols)) <=? 1)
             && forallb (fun p =>
                           length (filter (cohort_matches cat_cols p) items) <=? 1)
                        (cohorts data cat_cols c))
          customer_list.

(** The item of the row is null or a number that a float64 column holds
    as it is. *)
Definition exact_item (r : row) : bool :=
  match r_item r with
  | Some i => (to_float i =? i)%Z
  | None => true
  end.

Definition exact_items (rules : list py_rule) : bool :=
  forallb (fun rule => forallb exact_item (table_of rule)) rules.

(** The item column of the accumulated frame [df] is float64: it holds a
    null, or some rule's table did. *)
Definition item_float (rm_items : list item) (rules : list py_rule)
           (df : list row) : bool :=
  float_items rm_items rules || has_null_item df.

(** An item id as an item column holds it. *)
Definition held (float64 : bool) (i : item) : item :=
  if float64 then to_float i else i.

(** Cell [b] is cell [a], as it is or as a float64 column holds it. *)
Definition held_as (a b : cell item) : Prop :=
  b = a \/ b = option_map to_float a.


End Summary.

(** Sample data: customers 1, 2, 3 in the age bands young, old, unknown,
    and a cohort rule with item 101 for the young and item 102 for the old. *)
Module Sample.

Definition band (b : string) : list (string * cell string) :=
  [("age_band", Some b)].

Definition users : dataset :=
  mkData [mkUser (Some 1%Z) (band "young");
          mkUser (Some 2%Z) (band "old");
          mkUser (Some 3%Z) (band "unknown")].

Definition cohort_item (b : string) (i : item) : row :=
  mkRow None (Some i) (Some (1 # 2)%Q) (Some "by_age") (band b).

Definition by_age : py_rule :=
  UserGroupRetrieveRule ["age_band"]
                        [cohort_item "young" 101%Z; cohort_item "old" 102%Z].

Definition popular_item (i : item) : row :=
  mkRow None (Some i) (Some (3 # 4)%Q) (Some "popular") [].

Definition popular : py_rule :=
  GlobalRetrieveRule [popular_item 7%Z; popular_item 8%Z].

Definition bought (c : customer) (i : item) : row :=
  mkRow (Some c) (Some i) (Some (1 # 1)%Q) (Some "bought") [].

End Sample.

(** ** Facts about the table operations *)

Module TableFacts.
Import Table.

Lemma iloc_app {A} (df : list A) (p q : list nat) (a b : list A) :
  iloc df p = Some a -> iloc df q = Some b -> iloc df (p ++ q) = Some (a ++ b).
Proof.
  revert a; induction p as [|i p IH]; intros a Hp Hq; simpl in *.
  - injection Hp as <-. exact Hq.
  - destruct (nth_error df i) as [r|]; [|discriminate].
    destruct (iloc df p) as [rs|]; [|discriminate].
    injection Hp as <-. now rewrite (IH rs eq_refl Hq).
Qed.

Lemma iloc_seq {A} (pre l : list A) :
  iloc (pre ++ l) (seq (length pre) (length l)) = Some l.
Proof.
  revert pre; induction l as [|x l IH]; intros pre; simpl; [reflexivity|].
  rewrite nth_error_app2 by lia. rewrite Nat.sub_diag. simpl.
  replace (pre ++ x :: l) with ((pre ++ [x]) ++ l) by now rewrite <- app_assoc.
  replace (S (length pre)) with (length (pre ++ [x]))
    by (rewrite length_app; simpl; lia).
  now rewrite IH.
Qed.

Lemma iloc_arange {A} (df : list A) : iloc df (np_arange (length df)) = Some df.
Proof. exact (iloc_seq [] df). Qed.

Lemma iloc_tile {A} (df : list A) (n : nat) :
  iloc df (np_tile (np_arange (length df)) n) = Some (np_tile df n).
Proof.
  induction n as [|n IH]; simpl; [reflexivity|].
  apply iloc_app; [apply iloc_arange | exact IH].
Qed.

Lemma np_tile_length {A} (a : list A) (n : nat) :
  length (np_tile a n) = n * length a.
Proof. induction n; simpl; [reflexivity|]. rewrite length_app. lia. Qed.

Lemma np_repeat_length {A} (a : list A) (k : nat) :
  length (np_repeat a k) = length a * k.
Proof.
  unfold np_repeat. induction a; simpl; [reflexivity|].
  rewrite length_app, repeat_length. lia.
Qed.

Lemma flat_map_length_const {A B} (f : A -> list B) (l : list A) (k : nat) :
  (forall a, length (f a) = k) -> length (flat_map f l) = length l * k.
Proof.
  intros H. induction l; simpl; [reflexivity|].
  rewrite length_app, H. lia.
Qed.

Lemma left_merge_cons {L R} (matches : L -> R -> bool) (l : L)
      (left : list L) (right : list R) :
  left_merge matches (l :: left) right
  = match filter (matches l) right with
    | [] => [(l, None)]
    | ms => map (fun r => (l, Some r)) ms
    end ++ left_merge matches left right.
Proof. reflexivity. Qed.

(** The keys that [groupby] lists. *)
Lemma insert_key_In (k x : Z) (ks : list Z) :
  In x (insert_key k ks) <-> x = k \/ In x ks.
Proof.
  induction ks as [|h t IH]; simpl.
  - intuition.
  - destruct (Z.ltb_spec k h); simpl; [intuition|].
    destruct (Z.eqb_spec k h); simpl; [subst; intuition|].
    rewrite IH. intuition.
Qed.

Lemma insert_key_sorted (k : Z) (ks : list Z) :
  StronglySorted Z.lt ks -> StronglySorted Z.lt (insert_key k ks).
Proof.
  induction 1 as [|h t Hs IH Hall]; simpl.
  - repeat constructor.
  - destruct (Z.ltb_spec k h).
    + constructor; [now constructor|].
      constructor; [assumption|].
      rewrite Forall_forall in *. intros x Hx. specialize (Hall x Hx). lia.
    + destruct (Z.eqb_spec k h); [now constructor|].
      constructor; [assumption|].
      rewrite Forall_forall in *. intros x Hx.
      apply insert_key_In in Hx as [->|Hx]; [lia | now apply Hall].
Qed.

Lemma sorted_keys_sorted (ks : list Z) : StronglySorted Z.lt (sorted_keys ks).
Proof.
  induction ks; simpl; [constructor | now apply insert_key_sorted].
Qed.

Lemma sorted_keys_In (x : Z) (ks : list Z) : In x (sorted_keys ks) <-> In x ks.
Proof.
  induction ks as [|k ks IH]; simpl; [tauto|].
  rewrite insert_key_In, IH. intuition.
Qed.

Lemma strictly_sorted_NoDup (ks : list Z) : StronglySorted Z.lt ks -> NoDup ks.
Proof.
  induction 1 as [|h t Hs IH Hall]; constructor; [|assumption].
  intros Hin. rewrite Forall_forall in Hall. specialize (Hall h Hin). lia.
Qed.

Lemma sorted_keys_NoDup (ks : list Z) : NoDup (sorted_keys ks).
Proof. apply strictly_sorted_NoDup, sorted_keys_sorted. Qed.

(** Looking a key up in a frame that has one row per distinct key. *)
Lemma filter_absent_key {B} (f : Z -> B) (c : Z) (ks : list Z) :
  ~ In c ks ->
  filter (fun g => (c =? fst g)%Z) (map (fun k => (k, f k)) ks) = [].
Proof.
  induction ks as [|k ks IH]; simpl; [reflexivity|]. intros Hn.
  destruct (Z.eqb_spec c k); [exfalso; apply Hn; now left|].
  apply IH. intros Hc. apply Hn. now right.
Qed.

Lemma filter_unique_key {B} (f : Z -> B) (c : Z) (ks : list Z) :
  NoDup ks -> In c ks ->
  filter (fun g => (c =? fst g)%Z) (map (fun k => (k, f k)) ks) = [(c, f c)].
Proof.
  induction 1 as [|k ks Hk Hnd IH]; simpl; [tauto|]. intros [->|Hin].
  - rewrite Z.eqb_refl. now rewrite filter_absent_key.
  - destruct (Z.eqb_spec c k); [subst; contradiction|]. now apply IH.
Qed.

(** *** Float storage of ids *)

Section FloatFacts.
Local Open Scope Z_scope.

Lemma to_float_small (z : Z) : Z.abs z < 2 ^ 53 -> to_float z = z.
Proof.
  intros H. unfold to_float.
  destruct (Z.leb_spec (Z.log2 (Z.abs z)) 52) as [_|Hl]; [reflexivity|].
  exfalso. destruct (Z.eq_dec (Z.abs z) 0) as [E|E].
  - rewrite E in Hl. simpl in Hl. lia.
  - assert (Z.log2 (Z.abs z) < 53); [|lia].
    apply Z.log2_lt_pow2; lia.
Qed.

Lemma round_even_multiple (m e : Z) :
  0 < e -> round_even (m * 2 ^ e) e = m * 2 ^ e.
Proof.
  intros He. unfold round_even.
  assert (Hp : 0 < 2 ^ e) by (apply Z.pow_pos_nonneg; lia).
  rewrite Z.mod_mul by lia. rewrite Z.div_mul by lia.
  destruct (Z.ltb_spec (2 * 0) (2 ^ e)); [reflexivity | lia].
Qed.

Lemma round_even_range (a e : Z) :
  0 < e -> 2 ^ 52 * 2 ^ e <= a < 2 ^ 53 * 2 ^ e ->
  exists m, round_even a e = m * 2 ^ e /\ 2 ^ 52 <= m <= 2 ^ 53.
Proof.
  intros He [Hlo Hhi].
  assert (Hp : 0 < 2 ^ e) by (apply Z.pow_pos_nonneg; lia).
  assert (Hq : 2 ^ 52 <= a / 2 ^ e < 2 ^ 53).
  { split.
    - apply Z.div_le_lower_bound; lia.
    - apply Z.div_lt_upper_bound; lia. }
  unfold round_even.
  destruct (2 * (a mod 2 ^ e) <? 2 ^ e); [exists (a / 2 ^ e); lia|].
  destruct (2 ^ e <? 2 * (a mod 2 ^ e)); [exists (a / 2 ^ e + 1); lia|].
  destruct (Z.even (a / 2 ^ e)); [exists (a / 2 ^ e); lia | exists (a / 2 ^ e + 1); lia].
Qed.

Lemma log2_bounds (a : Z) : 0 < a -> 2 ^ Z.log2 a <= a < 2 ^ (Z.log2 a + 1).
Proof. intros H. replace (Z.log2 a + 1) with (Z.succ (Z.log2 a)) by lia. now apply Z.log2_spec. Qed.

Lemma to_float_nonneg (a : Z) :
  0 <= a ->
  to_float a = a
  \/ exists m e, 0 < e /\ 2 ^ 52 <= m <= 2 ^ 53 /\ to_float a = m * 2 ^ e.
Proof.
  intros Ha. unfold to_float. rewrite (Z.abs_eq a Ha).
  destruct (Z.leb_spec (Z.log2 a) 52) as [Hs|Hl]; [now left|]. right.
  assert (Hpos : 0 < a).
  { destruct (Z.eq_dec a 0) as [->|]; [simpl in Hl; lia | lia]. }
  rewrite (Z.sgn_pos a Hpos), Z.mul_1_l.
  assert (He : 0 < Z.log2 a - 52) by lia.
  destruct (log2_bounds a Hpos) as [Hlo Hhi].
  assert (E1 : 2 ^ Z.log2 a = 2 ^ 52 * 2 ^ (Z.log2 a - 52)).
  { rewrite <- Z.pow_add_r by lia. f_equal. lia. }
  assert (E2 : 2 ^ (Z.log2 a + 1) = 2 ^ 53 * 2 ^ (Z.log2 a - 52)).
  { rewrite <- Z.pow_add_r by lia. f_equal. lia. }
  destruct (round_even_range a (Z.log2 a - 52) He) as [m [Hm Hr]]; [lia|].
  exists m, (Z.log2 a - 52). now rewrite Hm.
Qed.

Lemma to_float_multiple (m e : Z) :
  0 < e -> 2 ^ 52 <= m <= 2 ^ 53 -> to_float (m * 2 ^ e) = m * 2 ^ e.
Proof.
  intros He Hm.
  assert (Hp : 0 < 2 ^ e) by (apply Z.pow_pos_nonneg; lia).
  assert (Hb : 0 < m * 2 ^ e) by nia.
  unfold to_float. rewrite (Z.abs_eq _ (Z.lt_le_incl _ _ Hb)).
  rewrite (Z.sgn_pos _ Hb), Z.mul_1_l.
  destruct (Z.eq_dec m (2 ^ 53)) as [->|Hne].
  - assert (El : Z.log2 (2 ^ 53 * 2 ^ e) = 53 + e).
    { rewrite <- Z.pow_add_r by lia. apply Z.log2_pow2. lia. }
    rewrite El. destruct (Z.leb_spec (53 + e) 52); [lia|].
    replace (53 + e - 52) with (e + 1) by lia.
    replace (2 ^ 53 * 2 ^ e) with (2 ^ 52 * 2 ^ (e + 1)).
    + apply round_even_multiple. lia.
    + rewrite Z.pow_add_r by lia. change (2 ^ 53) with (2 ^ 52 * 2).
      change (2 ^ 1) with 2. ring.
  - assert (El : Z.log2 (m * 2 ^ e) = 52 + e).
    { apply Z.log2_unique; [lia|]. rewrite Z.pow_add_r by lia.
      replace (Z.succ (52 + e)) with (53 + e) by lia.
      rewrite Z.pow_add_r by lia. split; nia. }
    rewrite El. destruct (Z.leb_spec (52 + e) 52); [lia|].
    replace (52 + e - 52) with e by lia. now apply round_even_multiple.
Qed.

Lemma to_float_nonneg_idem (a : Z) : 0 <= a -> to_float (to_float a) = to_float a.
Proof.
  intros Ha. destruct (to_float_nonneg a Ha) as [E|[m [e [He [Hm E]]]]].
  - now rewrite E.
  - rewrite E. now apply to_float_multiple.
Qed.

Lemma to_float_opp (z : Z) : to_float (- z) = - to_float z.
Proof.
  unfold to_float. rewrite Z.abs_opp, Z.sgn_opp.
  destruct (Z.log2 (Z.abs z) <=? 52); [reflexivity | ring].
Qed.

Lemma to_float_idempotent (z : Z) : to_float (to_float z) = to_float z.
Proof.
  destruct (Z.le_gt_cases 0 z) as [H|H].
  - now apply to_float_nonneg_idem.
  - assert (E : z = - (- z)) by lia. rewrite E.
    rewrite (to_float_opp (- z)), (to_float_opp (to_float (- z))).
    f_equal. apply to_float_nonneg_idem. lia.
Qed.

End FloatFacts.

Lemma option_to_float_idempotent (c : cell Z) :
  option_map to_float (option_map to_float c) = option_map to_float c.
Proof. destruct c; simpl; [now rewrite to_float_idempotent | reflexivity]. Qed.

Lemma stored_row_twice (f0 n0 f n : bool) (r : row) :
  (f0 = true -> f = true) -> (n0 = true -> n = true) ->
  stored_row f n (stored_row f0 n0 r) = stored_row f n r.
Proof.
  intros Hf Hn. destruct r as [c i sc m cs].
  destruct f0, n0; try rewrite (Hf eq_refl); try rewrite (Hn eq_refl);
    destruct f, n; unfold stored_row, float_customer, float_item; simpl;
    rewrite ?option_to_float_idempotent; reflexivity.
Qed.

Lemma stored_row_null (f n : bool) (r : row) :
  r_item (stored_row f n r) = None <-> r_item r = None.
Proof.
  destruct r as [c [i|] sc m cs], f, n;
    unfold stored_row, float_customer, float_item; simpl; split; intro H; easy.
Qed.

Lemma has_null_item_app (a b : list row) :
  has_null_item (a ++ b) = has_null_item a || has_null_item b.
Proof. apply existsb_app. Qed.

Lemma has_null_item_stored (f n : bool) (df : list row) :
  has_null_item (map (stored_row f n) df) = has_null_item df.
Proof.
  unfold has_null_item. induction df as [|r df IH]; simpl; [reflexivity|].
  rewrite IH. f_equal.
  destruct r as [c [i|] sc m cs], f, n; reflexivity.
Qed.

Lemma has_null_item_In (df : list row) :
  has_null_item df = true <-> exists r, In r df /\ r_item r = None.
Proof.
  unfold has_null_item. rewrite existsb_exists. split.
  - intros [r [Hr Hn]]. exists r. split; [assumption|].
    now destruct (r_item r).
  - intros [r [Hr Hn]]. exists r. split; [assumption | now rewrite Hn].
Qed.

Lemma as_stored_null (f i : bool) (df : list row) :
  has_null_item (as_stored f i df) = has_null_item df.
Proof. apply has_null_item_stored. Qed.

Lemma as_stored_length (f i : bool) (df : list row) :
  length (as_stored f i df) = length df.
Proof. apply length_map. Qed.

Lemma as_stored_In (f i : bool) (df : list row) (x : row) :
  In x (as_stored f i df)
  <-> exists r, In r df /\ x = stored_row f (i || has_null_item df) r.
Proof.
  unfold as_stored. rewrite in_map_iff. split.
  - intros [r [<- Hr]]. now exists r.
  - intros [r [Hr ->]]. now exists r.
Qed.

Lemma as_stored_again (f0 i0 f i : bool) (a b : list row) :
  (f0 = true -> f = true) -> (i0 = true -> i = true) ->
  as_stored f i (as_stored f0 i0 a ++ b) = as_stored f i (a ++ b).
Proof.
  intros Hf Hi. unfold as_stored at 1 3.
  rewrite has_null_item_app, as_stored_null, <- has_null_item_app.
  rewrite !map_app. f_equal. unfold as_stored. rewrite map_map.
  apply map_ext. intros r. apply stored_row_twice; [assumption|].
  intros Hn. apply orb_prop in Hn as [Hn|Hn].
  - now rewrite (Hi Hn).
  - rewrite has_null_item_app, Hn. now rewrite orb_true_r.
Qed.

Lemma as_stored_customers (i : bool) (df : list row) :
  map r_customer (as_stored false i df) = map r_customer df.
Proof.
  unfold as_stored. rewrite map_map. apply map_ext. intros r.
  unfold stored_row. now destruct (i || has_null_item df).
Qed.


Lemma stored_row_of_null (n : bool) (r : row) :
  r_item r = None -> stored_row false n r = r.
Proof.
  destruct r as [c [i|] sc m cs], n;
    unfold stored_row, float_item; simpl; intros H;
    first [discriminate H | reflexivity].
Qed.

End TableFacts.

(** ** What a run of [collect] computes *)

Module CollectorFacts.
Import Table TableFacts RuleCollector Summary.

(** *** The Global branch never raises *)

Lemma set_customer_id_repeat (c : customer) (items : list row) :
  set_customer_id items (repeat c (length items))
  = Some (map (with_customer c) items).
Proof.
  induction items as [|r items IH]; simpl; [reflexivity|]. now rewrite IH.
Qed.

Lemma set_customer_id_app (a b a' b' : list row) (va vb : list customer) :
  set_customer_id a va = Some a' -> set_customer_id b vb = Some b' ->
  set_customer_id (a ++ b) (va ++ vb) = Some (a' ++ b').
Proof.
  revert va a'; induction a as [|r a IH]; intros [|v va] a' Ha Hb;
    simpl in *; try discriminate.
  - injection Ha as <-. exact Hb.
  - destruct (set_customer_id a va) as [x|] eqn:E; [|discriminate].
    injection Ha as <-. now rewrite (IH va x E Hb).
Qed.

Lemma set_customer_id_tile (customer_list : list customer) (items : list row) :
  set_customer_id (np_tile items (length customer_list))
                  (np_repeat customer_list (length items))
  = Some (cross customer_list items).
Proof.
  unfold np_repeat, cross.
  induction customer_list as [|c cs IH]; simpl; [reflexivity|].
  apply set_customer_id_app; [apply set_customer_id_repeat | exact IH].
Qed.

Lemma broadcast_returns (customer_list : list customer) (items : list row)
      (t : list event) :
  broadcast customer_list items t = (Returns (cross customer_list items), t).
Proof.
  unfold broadcast. rewrite iloc_tile, set_customer_id_tile. reflexivity.
Qed.

Lemma cross_length (customer_list : list customer) (items : list row) :
  length (cross customer_list items) = length items * length customer_list.
Proof.
  unfold cross.
  rewrite (flat_map_length_const _ _ (length items)); [lia|].
  intros c. apply length_map.
Qed.

(** *** The checks *)

Lemma check_rule_ok (rules : list py_rule) (t : list event) :
  forallb is_rule rules = true -> _check_rule rules t = (Returns tt, t).
Proof.
  induction rules as [|r rules IH]; simpl; [reflexivity|].
  destruct r; simpl; try exact IH. discriminate.
Qed.

Lemma check_rule_bad (rules : list py_rule) (t : list event) :
  forallb is_rule rules = false ->
  _check_rule rules t
  = (Raises (TypeError "Rule must be `PersonalRetrieveRule` or `GlobalRetrieveRule`"), t).
Proof.
  induction rules as [|r rules IH]; simpl; [discriminate|].
  destruct r; simpl; try exact IH. reflexivity.
Qed.

Lemma check_filter_ok (filters : list py_filter) (t : list event) :
  forallb is_filter filters = true -> _check_filter filters t = (Returns tt, t).
Proof.
  induction filters as [|f filters IH]; simpl; [reflexivity|].
  destruct f; simpl; [exact IH | discriminate].
Qed.

Lemma check_filter_bad (filters : list py_filter) (t : list event) :
  forallb is_filter filters = false ->
  _check_filter filters t = (Raises (TypeError "Filter must be `FilterRule`"), t).
Proof.
  induction filters as [|f filters IH]; simpl; [discriminate|].
  destruct f; simpl; [exact IH | reflexivity].
Qed.

(** *** The two loops *)

Lemma remove_items_returns (filters : list py_filter) (rm : list item)
      (t : list event) :
  forallb is_filter filters = true ->
  remove_items filters rm t
  = (Returns (rm ++ flat_map filter_items filters),
     t ++ map FilterRetrieve filters).
Proof.
  revert rm t; induction filters as [|f filters IH]; intros rm t H; simpl.
  - now rewrite !app_nil_r.
  - simpl in H. apply andb_prop in H as [Hf Hfs].
    destruct f as [l|o]; [|discriminate]. unfold bind; simpl.
    rewrite (IH _ _ Hfs). now rewrite <- !app_assoc.
Qed.

Lemma normalize_returns data customer_list rm rule items tmp t :
  is_rule rule = true ->
  rule_retrieve rule t = (Returns items, t ++ [RuleRetrieve rule]) ->
  normalize data customer_list rule (drop_removed rm items) tmp
            (t ++ [RuleRetrieve rule])
  = (Returns (contribution data customer_list rm rule), t ++ [RuleRetrieve rule]).
Proof.
  destruct rule; simpl; intros Hr Hret; try discriminate;
    unfold bind, log, ret in Hret; simpl in Hret;
    injection Hret as <-; [apply broadcast_returns | reflexivity | reflexivity].
Qed.

Lemma rule_retrieve_returns (rule : py_rule) (t : list event) :
  is_rule rule = true ->
  exists items, rule_retrieve rule t = (Returns items, t ++ [RuleRetrieve rule]).
Proof. destruct rule; simpl; intros H; try discriminate; eexists; reflexivity. Qed.

Lemma customer_dtype_of_rule customer_list rule tmp :
  is_rule rule = true ->
  customer_dtype customer_list rule tmp = customer_dtype customer_list rule None.
Proof. now destruct rule. Qed.

Lemma item_dtype_of_rule rule items tmp :
  is_rule rule = true -> item_dtype rule items tmp = has_null_item items.
Proof. now destruct rule. Qed.

Lemma rule_retrieve_table (rule : py_rule) (t : list event) :
  is_rule rule = true ->
  rule_retrieve rule t = (Returns (table_of rule), t ++ [RuleRetrieve rule]).
Proof. destruct rule; simpl; intros H; try discriminate; reflexivity. Qed.

Lemma retrieve_loop_returns data customer_list rm rules pred tmp t :
  forallb is_rule rules = true ->
  retrieve_loop data customer_list rm rules pred tmp t
  = (Returns (accumulate data customer_list rm rules pred),
     t ++ map RuleRetrieve rules).
Proof.
  revert pred tmp t; induction rules as [|r rules IH]; intros pred tmp t H; simpl.
  - now rewrite app_nil_r.
  - simpl in H. apply andb_prop in H as [Hr Hrs].
    pose proof (rule_retrieve_table r t Hr) as Hret.
    unfold bind at 1. rewrite Hret.
    unfold bind at 1. rewrite (normalize_returns _ _ _ _ _ _ _ Hr Hret).
    rewrite (IH _ _ _ Hrs). rewrite <- app_assoc. simpl.
    now rewrite (customer_dtype_of_rule _ _ _ Hr), (item_dtype_of_rule _ _ _ Hr).
Qed.

Lemma accumulate_stored data customer_list rm rules f0 i0 R0 :
  accumulate data customer_list rm rules
             (Some (mkFrame f0 i0 (as_stored f0 i0 R0)))
  = Some (mkFrame (f0 || float_targets customer_list rules)
                  (i0 || float_items rm rules)
                  (as_stored (f0 || float_targets customer_list rules)
                             (i0 || float_items rm rules)
                             (R0 ++ tables data customer_list rm rules))).
Proof.
  revert f0 i0 R0; induction rules as [|r rules IH]; intros f0 i0 R0; simpl.
  - now rewrite !orb_false_r, app_nil_r.
  - unfold tables. simpl. rewrite as_stored_again.
    + fold (tables data customer_list rm rules).
      rewrite IH. now rewrite <- !orb_assoc, <- app_assoc.
    + intros ->. reflexivity.
    + intros ->. reflexivity.
Qed.

Lemma accumulate_from_none data customer_list rm r rules :
  accumulate data customer_list rm (r :: rules) None
  = Some (mkFrame (float_targets customer_list (r :: rules))
                  (float_items rm (r :: rules))
                  (combined data customer_list rm (r :: rules))).
Proof.
  simpl. apply accumulate_stored.
Qed.

End CollectorFacts.

(** ** The compression step *)

Module CompressFacts.
Import Table TableFacts RuleCollector Summary CollectorFacts.

Lemma customers_of_In (c : customer) (df : list row) :
  In c (customers_of df) <-> exists r, In r df /\ r_customer r = Some c.
Proof.
  unfold customers_of. rewrite in_flat_map. split.
  - intros [r [Hr Hc]]. exists r. split; [assumption|].
    destruct (r_customer r); simpl in Hc; [|contradiction].
    destruct Hc as [->|[]]. reflexivity.
  - intros [r [Hr Hc]]. exists r. split; [assumption|].
    rewrite Hc. now left.
Qed.

Lemma has_rows_In (c : customer) (df : list row) :
  has_rows c df = true <-> In c (customers_of df).
Proof.
  unfold has_rows. rewrite existsb_exists. split.
  - intros [x [Hx He]]. apply Z.eqb_eq in He. now subst.
  - intros H. exists c. split; [assumption | apply Z.eqb_refl].
Qed.

Lemma customer_is_true (c : customer) (r : row) :
  customer_is c r = true <-> r_customer r = Some c.
Proof.
  unfold customer_is. destruct (r_customer r) as [c'|].
  - rewrite Z.eqb_eq. split; [now intros -> | now intros [= ->]].
  - split; discriminate.
Qed.

Lemma items_of_absent (c : customer) (df : list row) :
  has_rows c df = false -> items_of c df = [].
Proof.
  intros H. unfold items_of.
  assert (Hn : ~ In c (customers_of df)).
  { intros Hin. apply has_rows_In in Hin. congruence. }
  clear H. induction df as [|r df IH]; simpl; [reflexivity|].
  destruct (customer_is c r) eqn:E.
  - exfalso. apply Hn. apply customers_of_In. exists r.
    split; [now left | now apply customer_is_true].
  - apply IH. intros Hin. apply Hn.
    apply customers_of_In in Hin as [r' [Hr' Hc']].
    apply customers_of_In. exists r'. split; [now right | assumption].
Qed.

Lemma merge_grouped (customer_list : list customer) (df : list row) :
  map (fun p => (fst p, option_map snd (snd p)))
      (left_merge (fun c g => (c =? fst g)%Z) customer_list (groupby_apply_list df))
  = map (fun c => (c, if has_rows c df then Some (items_of c df) else None))
        customer_list.
Proof.
  induction customer_list as [|c cs IH]; [reflexivity|].
  rewrite left_merge_cons, map_app, IH. clear IH.
  unfold groupby_apply_list. cbn [map].
  destruct (has_rows c df) eqn:E.
  - rewrite (filter_unique_key (fun k => items_of k df) c).
    + reflexivity.
    + apply sorted_keys_NoDup.
    + apply sorted_keys_In. now apply has_rows_In.
  - rewrite (filter_absent_key (fun k => items_of k df) c); [reflexivity|].
    intros Hin. apply sorted_keys_In, has_rows_In in Hin. congruence.
Qed.

Lemma loc_assign_impute {A} (v : A) (df : list (customer * cell A)) :
  loc_assign df (map (fun p => isna (snd p)) df)
             (repeat v (length (filter (fun b => b)
                                       (map (fun p => isna (snd p)) df))))
  = Some (map (fun p => (fst p, Some (match snd p with
                                      | Some x => x
                                      | None => v
                                      end))) df).
Proof.
  induction df as [|[c [x|]] df IH]; simpl; [reflexivity| |];
    rewrite IH; reflexivity.
Qed.

Lemma compress_df_returns customer_list df t :
  compress_df customer_list df t
  = (Returns (Compressed (compressed customer_list df)), t).
Proof.
  unfold compress_df. rewrite merge_grouped, loc_assign_impute.
  unfold ret, compressed. rewrite map_map. do 3 f_equal.
  apply map_ext. intros c. simpl.
  destruct (has_rows c df) eqn:E; [reflexivity|].
  now rewrite items_of_absent.
Qed.

Lemma collect_prefix data customer_list rules filters compress t :
  all_conform rules filters = true ->
  collect data customer_list rules filters compress t
  = bind (retrieve_loop data customer_list (exclusion filters) rules None None)
         (fun pred_df =>
            if compress then
              match pred_df with
              | None => raise (AttributeError "'NoneType' object has no attribute 'groupby'")
              | Some df => compress_df customer_list (frame_rows df)
              end
            else ret (match pred_df with
                      | None => PyNone
                      | Some df => Candidates (frame_rows df)
                      end))
         (t ++ map FilterRetrieve (filters_of filters)).
Proof.
  unfold all_conform. intros H. apply andb_prop in H as [Hr Hf].
  unfold collect. unfold bind at 1. rewrite (check_rule_ok _ _ Hr).
  unfold bind at 1. destruct filters as [fs|]; simpl in *.
  - unfold bind at 1. rewrite (check_filter_ok _ _ Hf). unfold ret at 1.
    unfold bind at 1. rewrite (remove_items_returns _ _ _ Hf). reflexivity.
  - unfold ret at 1. unfold bind at 1. simpl. unfold ret at 1.
    now rewrite app_nil_r.
Qed.

Lemma collect_bad_rule data customer_list rules filters compress t :
  forallb is_rule rules = false ->
  collect data customer_list rules filters compress t
  = (Raises (TypeError "Rule must be `PersonalRetrieveRule` or `GlobalRetrieveRule`"), t).
Proof.
  intros Er. unfold collect. unfold bind at 1. now rewrite (check_rule_bad _ _ Er).
Qed.

Lemma collect_bad_filter data customer_list rules filters compress t :
  forallb is_rule rules = true ->
  forallb is_filter (filters_of filters) = false ->
  collect data customer_list rules filters compress t
  = (Raises (TypeError "Filter must be `FilterRule`"), t).
Proof.
  intros Er Ef. unfold collect. unfold bind at 1. rewrite (check_rule_ok _ _ Er).
  destruct filters as [fs|]; simpl in Ef; [|discriminate].
  unfold bind. now rewrite (check_filter_bad _ _ Ef).
Qed.

Lemma forallb_false_of_In {A} (f : A -> bool) (l : list A) (x : A) :
  In x l -> f x = false -> forallb f l = false.
Proof.
  intros Hin Hx. destruct (forallb f l) eqn:E; [|reflexivity].
  rewrite forallb_forall in E. rewrite (E x Hin) in Hx. discriminate.
Qed.

Lemma collect_flat data customer_list r rules filters t :
  all_conform (r :: rules) filters = true ->
  collect data customer_list (r :: rules) filters false t
  = (Returns (Candidates (combined data customer_list (exclusion filters) (r :: rules))),
     t ++ calls (r :: rules) filters).
Proof.
  intros H. rewrite (collect_prefix _ _ _ _ _ _ H).
  unfold all_conform in H. apply andb_prop in H as [Hr Hf].
  unfold bind. rewrite (retrieve_loop_returns _ _ _ _ _ _ _ Hr).
  rewrite accumulate_from_none. unfold ret, calls. simpl.
  now rewrite <- app_assoc.
Qed.

Lemma collect_compressed data customer_list r rules filters t :
  all_conform (r :: rules) filters = true ->
  collect data customer_list (r :: rules) filters true t
  = (Returns (Compressed
                (compressed customer_list
                   (combined data customer_list (exclusion filters) (r :: rules)))),
     t ++ calls (r :: rules) filters).
Proof.
  intros H. rewrite (collect_prefix _ _ _ _ _ _ H).
  unfold all_conform in H. apply andb_prop in H as [Hr Hf].
  unfold bind. rewrite (retrieve_loop_returns _ _ _ _ _ _ _ Hr).
  rewrite accumulate_from_none. cbn [frame_rows].
  rewrite compress_df_returns. unfold calls. now rewrite <- app_assoc.
Qed.

End CompressFacts.

(** ** Joins, counts and lookups used by the properties *)

Module JoinFacts.
Import Table TableFacts RuleCollector Summary CollectorFacts CompressFacts.

Lemma left_merge_app {L R} (matches : L -> R -> bool) (a b : list L)
      (right : list R) :
  left_merge matches (a ++ b) right
  = left_merge matches a right ++ left_merge matches b right.
Proof. unfold left_merge. apply flat_map_app. Qed.

Lemma left_merge_In_left {L R} (matches : L -> R -> bool) (left : list L)
      (right : list R) (l : L) (o : option R) :
  In (l, o) (left_merge matches left right) -> In l left.
Proof.
  unfold left_merge. rewrite in_flat_map. intros [l' [Hl' Hin]].
  destruct (filter (matches l') right) as [|m ms].
  - destruct Hin as [[= <- _]|[]]. assumption.
  - apply in_map_iff in Hin as [r [[= <- _] _]]. assumption.
Qed.

Lemma left_merge_In_right {L R} (matches : L -> R -> bool) (left : list L)
      (right : list R) (l : L) (r : R) :
  In (l, Some r) (left_merge matches left right) ->
  In r right /\ matches l r = true.
Proof.
  unfold left_merge. rewrite in_flat_map. intros [l' [Hl' Hin]].
  destruct (filter (matches l') right) as [|m ms] eqn:E.
  - destruct Hin as [[=]|[]].
  - apply in_map_iff in Hin as [r' [[= <- <-] Hr']].
    rewrite <- E in Hr'. now apply filter_In in Hr'.
Qed.

Lemma left_merge_covers {L R} (matches : L -> R -> bool) (left : list L)
      (right : list R) (l : L) :
  In l left -> exists o, In (l, o) (left_merge matches left right).
Proof.
  intros Hl. unfold left_merge.
  destruct (filter (matches l) right) as [|m ms] eqn:E.
  - exists None. apply in_flat_map. exists l. split; [assumption|].
    rewrite E. now left.
  - exists (Some m). apply in_flat_map. exists l. split; [assumption|].
    rewrite E. now left.
Qed.

Lemma filter_none {A} (f : A -> bool) (l : list A) :
  (forall x, In x l -> f x = false) -> filter f l = [].
Proof.
  induction l as [|x l IH]; simpl; intros H; [reflexivity|].
  rewrite (H x (or_introl eq_refl)). apply IH. intros y Hy. apply H. now right.
Qed.

Lemma left_merge_no_match {L R} (matches : L -> R -> bool) (left : list L)
      (right : list R) :
  (forall l, In l left -> forall r, In r right -> matches l r = false) ->
  left_merge matches left right = map (fun l => (l, None)) left.
Proof.
  intros H.
  induction left as [|l left IH]; [reflexivity|].
  rewrite left_merge_cons.
  rewrite IH by (intros; apply H; [now right | assumption]).
  rewrite (filter_none (matches l) right (H l (or_introl eq_refl))).
  reflexivity.
Qed.

(** *** The UserGroup join, customer by customer *)

Lemma join_by_customer data customer_list cat_cols items :
  map project
      (left_merge (cohort_matches cat_cols)
                  (left_merge customer_matches customer_list
                              (user_table data cat_cols)) items)
  = flat_map (group_rows data cat_cols items) customer_list.
Proof.
  unfold group_rows, cohorts.
  induction customer_list as [|c cs IH]; [reflexivity|].
  change (c :: cs) with ([c] ++ cs).
  rewrite left_merge_app, left_merge_app, map_app, IH. reflexivity.
Qed.

Lemma group_join_by_customer data customer_list cat_cols items :
  group_join data customer_list cat_cols items
  = as_stored false (has_null_item items)
              (flat_map (group_rows data cat_cols items) customer_list).
Proof.
  unfold group_join. fold (user_table data cat_cols).
  now rewrite join_by_customer.
Qed.

Lemma group_join_null data customer_list cat_cols items x :
  In x (flat_map (group_rows data cat_cols items) customer_list) ->
  r_item x = None ->
  In x (group_join data customer_list cat_cols items).
Proof.
  intros Hx Hn. rewrite group_join_by_customer. apply as_stored_In.
  exists x. split; [assumption|]. now rewrite stored_row_of_null.
Qed.

Lemma group_join_In data customer_list cat_cols items x :
  In x (group_join data customer_list cat_cols items) ->
  exists y, In y (flat_map (group_rows data cat_cols items) customer_list)
            /\ r_customer x = r_customer y
            /\ (r_item x = None <-> r_item y = None)
            /\ held_as (r_item y) (r_item x).
Proof.
  rewrite group_join_by_customer. intros Hx.
  apply as_stored_In in Hx as [y [Hy ->]]. exists y.
  split; [assumption|]. split; [|split].
  - unfold stored_row. now destruct (_ || _).
  - apply stored_row_null.
  - unfold stored_row, held_as, float_item.
    destruct (_ || _); simpl; [now right | now left].
Qed.

Lemma cohorts_customer data cat_cols c p :
  In p (cohorts data cat_cols c) -> fst p = c.
Proof.
  destruct p as [c' o]. intros H.
  apply left_merge_In_left in H as [->|[]]. reflexivity.
Qed.

Lemma cohorts_nonempty data cat_cols c : cohorts data cat_cols c <> [].
Proof.
  destruct (left_merge_covers customer_matches [c] (user_table data cat_cols) c
                              (or_introl eq_refl)) as [o Ho].
  unfold cohorts. intros E. rewrite E in Ho. contradiction.
Qed.

Lemma group_rows_customer data cat_cols items c r :
  In r (group_rows data cat_cols items c) -> r_customer r = Some c.
Proof.
  unfold group_rows. rewrite in_map_iff. intros [[p o] [<- Hin]].
  apply left_merge_In_left, cohorts_customer in Hin.
  unfold project; simpl. destruct o; simpl; now rewrite Hin.
Qed.

Lemma group_rows_miss data cat_cols items c :
  misses data cat_cols items c = true ->
  group_rows data cat_cols items c
  = map (fun _ => null_row c) (cohorts data cat_cols c).
Proof.
  unfold misses, group_rows. intros H.
  rewrite left_merge_no_match.
  - rewrite map_map. apply map_ext_in. intros p Hp.
    unfold project, null_row; simpl. now rewrite (cohorts_customer _ _ _ _ Hp).
  - intros p Hp r Hr. rewrite forallb_forall in H. specialize (H p Hp).
    rewrite forallb_forall in H. specialize (H r Hr).
    now apply negb_true_iff in H.
Qed.

(** *** Rows and items *)


Lemma cross_In (customer_list : list customer) (items : list row) (x : row) :
  In x (cross customer_list items)
  <-> exists c r, In c customer_list /\ In r items /\ x = with_customer c r.
Proof.
  unfold cross. rewrite in_flat_map. split.
  - intros [c [Hc Hx]]. apply in_map_iff in Hx as [r [<- Hr]]. now exists c, r.
  - intros [c [r [Hc [Hr ->]]]]. exists c. split; [assumption|].
    now apply in_map.
Qed.

Lemma held_as_refl (a : cell item) : held_as a a.
Proof. now left. Qed.



Lemma held_as_exact (r : row) (b : cell item) :
  exact_item r = true -> held_as (r_item r) b -> b = r_item r.
Proof.
  unfold exact_item, held_as. intros He [->| ->]; [reflexivity|].
  destruct (r_item r) as [i|]; [|reflexivity]. simpl.
  apply Z.eqb_eq in He. now rewrite He.
Qed.

Lemma held_as_null (a b : cell item) : held_as a b -> (b = None <-> a = None).
Proof.
  unfold held_as. intros [->| ->]; destruct a; simpl; split; intro H; easy.
Qed.

(** Where the item of a row of a rule's table comes from. *)
Lemma contribution_source data customer_list rm rule y :
  In y (contribution data customer_list rm rule) ->
  r_item y = None
  \/ exists s, In s (drop_removed rm (table_of rule))
               /\ held_as (r_item s) (r_item y).
Proof.
  destruct rule as [t|t|cols t|o]; simpl; intros Hy.
  - apply cross_In in Hy as [c [r' [_ [Hr' ->]]]]. right. exists r'.
    split; [assumption | apply held_as_refl].
  - right. exists y. split; [assumption | apply held_as_refl].
  - apply group_join_In in Hy as [z [Hz [_ [_ Hheld]]]].
    rewrite <- join_by_customer in Hz.
    apply in_map_iff in Hz as [[p [r'|]] [<- Hin]].
    + apply left_merge_In_right in Hin as [Hr' _]. right. exists r'.
      split; [assumption | exact Hheld].
    + left. now apply (held_as_null _ _ Hheld).
  - contradiction.
Qed.



Lemma drop_removed_exact (rm : list item) (t : list row) (s : row) :
  forallb exact_item t = true -> In s (drop_removed rm t) -> exact_item s = true.
Proof.
  intros H Hs. unfold drop_removed in Hs. apply filter_In in Hs as [Hs _].
  rewrite forallb_forall in H. now apply H.
Qed.


(** A row that the columns store as it is, is a row of the frame. *)
Lemma combined_keeps data customer_list rm rules rule y :
  In rule rules ->
  In y (contribution data customer_list rm rule) ->
  In (stored_row (float_targets customer_list rules)
                 (float_items rm rules
                  || has_null_item (tables data customer_list rm rules)) y)
     (combined data customer_list rm rules).
Proof.
  intros Hrule Hy. unfold combined. apply as_stored_In. exists y.
  split; [|reflexivity]. unfold tables. apply in_flat_map. now exists rule.
Qed.

Lemma float_targets_nonempty (c : customer) (customer_list : list customer)
      (rules : list py_rule) :
  In c customer_list -> float_targets customer_list rules = false.
Proof.
  intros Hc. unfold float_targets.
  destruct customer_list as [|c' cs]; [contradiction|].
  induction rules as [|[t|t|cols t|o] rules IH]; simpl; auto.
Qed.


Lemma items_of_In (c : customer) (df : list row) (x : cell item) :
  In x (items_of c df) <-> exists r, In r df /\ r_customer r = Some c /\ r_item r = x.
Proof.
  unfold items_of. rewrite in_map_iff. split.
  - intros [r [<- Hr]]. apply filter_In in Hr as [Hr Hc].
    exists r. repeat split; [assumption | now apply customer_is_true].
  - intros [r [Hr [Hc <-]]]. exists r. split; [reflexivity|].
    apply filter_In. split; [assumption | now apply customer_is_true].
Qed.

Lemma compressed_In customer_list df c s :
  In (c, s) (compressed customer_list df)
  <-> In c customer_list /\ s = Some (items_of c df).
Proof.
  unfold compressed. rewrite in_map_iff. split.
  - intros [c' [[= -> <-] Hc]]. now split.
  - intros [Hc ->]. now exists c.
Qed.

Lemma compressed_customers customer_list df :
  map fst (compressed customer_list df) = customer_list.
Proof.
  unfold compressed. rewrite map_map. simpl. apply map_id.
Qed.

End JoinFacts.

(** ** Counting rows and list entries *)

Module CountFacts.
Import Table TableFacts RuleCollector Summary CollectorFacts CompressFacts JoinFacts.

Lemma pair_count_app (c : customer) (i : item) (a b : list row) :
  pair_count c i (a ++ b) = pair_count c i a + pair_count c i b.
Proof. unfold pair_count. now rewrite filter_app, length_app. Qed.

Lemma pair_count_flat_map {A} (c : customer) (i : item) (f : A -> list row)
      (l : list A) :
  pair_count c i (flat_map f l) = list_sum (map (fun a => pair_count c i (f a)) l).
Proof.
  induction l as [|a l IH]; simpl; [reflexivity|].
  now rewrite pair_count_app, IH.
Qed.

Lemma count_items_of (c : customer) (i : item) (df : list row) :
  count_occ cell_item_dec (items_of c df) (Some i) = pair_count c i df.
Proof.
  unfold items_of, pair_count.
  induction df as [|r df IH]; simpl; [reflexivity|].
  destruct (customer_is c r); simpl; [|exact IH].
  unfold item_is at 1.
  destruct (cell_item_dec (r_item r) (Some i)) as [E|E].
  - rewrite E, Z.eqb_refl. simpl. now rewrite IH.
  - destruct (r_item r) as [i'|]; [|exact IH].
    destruct (Z.eqb_spec i i'); [subst; contradiction | exact IH].
Qed.


Lemma filter_with_customer (c c' : customer) (items : list row) :
  filter (customer_is c) (map (with_customer c') items)
  = if (c =? c')%Z then map (with_customer c') items else [].
Proof.
  induction items as [|r items IH]; simpl.
  - now destruct (c =? c')%Z.
  - unfold customer_is at 1. simpl. rewrite IH. now destruct (c =? c')%Z.
Qed.

Lemma cross_rows_of (c : customer) (customer_list : list customer)
      (items : list row) :
  length (filter (customer_is c) (cross customer_list items))
  = count_occ Z.eq_dec customer_list c * length items.
Proof.
  unfold cross. induction customer_list as [|c' cs IH]; simpl; [reflexivity|].
  rewrite filter_app, length_app, IH, filter_with_customer.
  destruct (Z.eq_dec c' c) as [->|Hne].
  - rewrite Z.eqb_refl, length_map. lia.
  - destruct (Z.eqb_spec c c'); [subst; contradiction | simpl; lia].
Qed.

Lemma compressed_rows_of (c : customer) (customer_list : list customer)
      (df : list row) :
  filter (fun p => (fst p =? c)%Z) (compressed customer_list df)
  = repeat (c, Some (items_of c df)) (count_occ Z.eq_dec customer_list c).
Proof.
  unfold compressed. induction customer_list as [|c' cs IH]; simpl; [reflexivity|].
  destruct (Z.eq_dec c' c) as [->|Hne].
  - rewrite Z.eqb_refl. simpl. now rewrite IH.
  - destruct (Z.eqb_spec c' c); [contradiction | exact IH].
Qed.

Lemma collect_nonempty_flat data customer_list rules filters t :
  all_conform rules filters = true -> rules <> [] ->
  collect data customer_list rules filters false t
  = (Returns (Candidates (combined data customer_list (exclusion filters) rules)),
     t ++ calls rules filters).
Proof.
  destruct rules as [|r rules]; [congruence|]. intros H _. now apply collect_flat.
Qed.

Lemma collect_nonempty_compressed data customer_list rules filters t :
  all_conform rules filters = true -> rules <> [] ->
  collect data customer_list rules filters true t
  = (Returns (Compressed
                (compressed customer_list
                   (combined data customer_list (exclusion filters) rules))),
     t ++ calls rules filters).
Proof.
  destruct rules as [|r rules]; [congruence|]. intros H _.
  now apply collect_compressed.
Qed.

Lemma stored_row_exact (n : bool) (y : row) :
  exact_item y = true -> stored_row false n y = y.
Proof.
  destruct y as [c [i|] sc m cs], n; unfold exact_item, stored_row, float_item;
    simpl; intros H; try reflexivity.
  apply Z.eqb_eq in H. now rewrite H.
Qed.

Lemma as_stored_exact (i : bool) (df : list row) :
  (forall y, In y df -> exact_item y = true) -> as_stored false i df = df.
Proof.
  intros H. unfold as_stored. rewrite <- (map_id df) at 3.
  apply map_ext_in. intros y Hy. apply stored_row_exact. now apply H.
Qed.

Lemma tables_exact data customer_list rm rules y :
  exact_items rules = true ->
  In y (tables data customer_list rm rules) -> exact_item y = true.
Proof.
  intros He Hy. unfold tables in Hy. apply in_flat_map in Hy as [rule [Hrule Hy]].
  unfold exact_items in He. rewrite forallb_forall in He.
  destruct (contribution_source _ _ _ _ _ Hy) as [Hn|[s [Hs Hheld]]].
  - unfold exact_item. now rewrite Hn.
  - pose proof (drop_removed_exact _ _ _ (He rule Hrule) Hs) as Hex.
    unfold exact_item in *. now rewrite (held_as_exact _ _ Hex Hheld).
Qed.

Lemma combined_exact data customer_list rm rules :
  exact_items rules = true -> customer_list <> [] ->
  combined data customer_list rm rules = tables data customer_list rm rules.
Proof.
  intros He Hne. unfold combined.
  destruct customer_list as [|c cs]; [congruence|].
  rewrite (float_targets_nonempty c (c :: cs) rules (or_introl eq_refl)).
  apply as_stored_exact. intros y Hy. exact (tables_exact _ _ _ _ _ He Hy).
Qed.

Lemma item_float_combined data customer_list rm rules :
  item_float rm rules (combined data customer_list rm rules)
  = float_items rm rules
    || has_null_item (tables data customer_list rm rules).
Proof. unfold item_float, combined. now rewrite as_stored_null. Qed.

Lemma stored_row_item (f n : bool) (y : row) :
  r_item (stored_row f n y) = option_map (held n) (r_item y).
Proof.
  unfold stored_row, held, float_customer, float_item.
  destruct f, n, (r_item y) eqn:E; simpl; rewrite ?E; reflexivity.
Qed.

Lemma stored_row_customer (n : bool) (y : row) :
  r_customer (stored_row false n y) = r_customer y.
Proof. unfold stored_row. now destruct n. Qed.

Lemma customer_is_stored (c : customer) (n : bool) (y : row) :
  customer_is c (stored_row false n y) = customer_is c y.
Proof. unfold customer_is. now rewrite stored_row_customer. Qed.



Lemma filter_map_le {A B} (P : A -> bool) (Q : B -> bool) (g : A -> B)
      (l : list A) :
  (forall y, P y = true -> Q (g y) = true) ->
  length (filter P l) <= length (filter Q (map g l)).
Proof.
  intros H. induction l as [|y l IH]; simpl; [lia|].
  destruct (P y) eqn:E.
  - rewrite (H y E). simpl. lia.
  - destruct (Q (g y)); simpl; lia.
Qed.

Lemma pair_count_stored (c : customer) (it : bool) (i : item) (df : list row) :
  pair_count c i df
  <= pair_count c (held (it || has_null_item df) i) (as_stored false it df).
Proof.
  unfold pair_count, as_stored. apply filter_map_le. intros y Hy.
  apply andb_prop in Hy as [Hc Hi]. rewrite customer_is_stored, Hc. simpl.
  unfold item_is in *. rewrite stored_row_item.
  destruct (r_item y) as [i'|]; [|discriminate]. simpl.
  apply Z.eqb_eq in Hi. subst i'. apply Z.eqb_refl.
Qed.

Lemma length_flat_map {A B} (f : A -> list B) (l : list A) :
  length (flat_map f l) = list_sum (map (fun a => length (f a)) l).
Proof.
  induction l as [|a l IH]; simpl; [reflexivity|].
  now rewrite length_app, IH.
Qed.

End CountFacts.

(** ** Properties of [collect] *)

Import Table TableFacts RuleCollector Summary CollectorFacts CompressFacts
       JoinFacts CountFacts.


(** C4: Global broadcast.  The table of a Global rule, cleaned of the
    removed items, is turned into one row per (customer, item) pair: with
    [k] surviving item rows and [n] target customers the loop body returns
    exactly [k * n] rows, customer by customer and, for one customer, item
    row by item row; every target customer meets every surviving item row,
    and a row keeps the item, score and method of the item row it comes
    from. *)
Theorem global_broadcast
        (data : dataset) (customer_list : list customer) (rm_items : list item)
        (table : list row) (tmp_df : option (list row)) (t : list event) :
  exists out,
    normalize data customer_list (GlobalRetrieveRule table)
              (drop_removed rm_items table) tmp_df t = (Returns out, t)
    /\ length out = length (drop_removed rm_items table) * length customer_list
    /\ out = flat_map (fun c => map (with_customer c) (drop_removed rm_items table))
                      customer_list
    /\ (forall c r, In c customer_list /\ In r (drop_removed rm_items table) ->
          exists x, In x out /\ r_customer x = Some c /\ r_item x = r_item r
                    /\ r_score x = r_score r /\ r_method x = r_method r)
    /\ (forall x, In x out ->
          exists c r, In c customer_list /\ In r (drop_removed rm_items table)
                      /\ r_customer x = Some c /\ r_item x = r_item r
                      /\ r_score x = r_score r /\ r_method x = r_method r).
Proof.
  exists (cross customer_list (drop_removed rm_items table)).
  split; [apply broadcast_returns|].
  split; [apply cross_length|].
  split; [reflexivity|].
  split.
  - intros c r [Hc Hr]. exists (with_customer c r).
    split; [|now simpl]. apply cross_In. now exists c, r.
  - intros x Hx. apply cross_In in Hx as [c [r [Hc [Hr ->]]]].
    exists c, r. now simpl.
Qed.




(** C8: Type validation comes first.  When some entry of [rules] is none
    of the three rule classes, or some entry of [filters] is not a
    [FilterRule], the call raises the TypeError of the check that fails
    (the rule check runs first, so its message wins when both lists have a
    bad entry), and the log of [retrieve()] calls is the one the call
    started with: nothing was retrieved, whatever [compress] is and even
    when the foreign object has a [retrieve] method. *)
Theorem conformance_checked_first
        (data : dataset) (customer_list : list customer) (rules : list py_rule)
        (filters : option (list py_filter)) (compress : bool) (t : list event) :
  (exists r, In r rules /\ is_rule r = false)
  \/ (exists f, In f (filters_of filters) /\ is_filter f = false) ->
  collect data customer_list rules filters compress t
  = (Raises (TypeError
               (if forallb is_rule rules
                then "Filter must be `FilterRule`"
                else "Rule must be `PersonalRetrieveRule` or `GlobalRetrieveRule`")),
     t).
Proof.
  intros H. destruct (forallb is_rule rules) eqn:Er.
  - destruct H as [[r [Hr Hbad]]|[f [Hf Hbad]]].
    + rewrite (forallb_false_of_In _ _ _ Hr Hbad) in Er. discriminate.
    + apply collect_bad_filter; [assumption|].
      exact (forallb_false_of_In _ _ _ Hf Hbad).
  - now apply collect_bad_rule.
Qed.

Lemma conformance_checked_first_witness :
  collect Sample.users [1%Z; 2%Z]
          [Sample.popular; NotARule (Some [Sample.bought 1%Z 5%Z])]
          (Some [FilterRule [8%Z]]) true []
  = (Raises (TypeError "Rule must be `PersonalRetrieveRule` or `GlobalRetrieveRule`"),
     []).
Proof.
  apply (conformance_checked_first
           Sample.users [1%Z; 2%Z]
           [Sample.popular; NotARule (Some [Sample.bought 1%Z 5%Z])]
           (Some [FilterRule [8%Z]]) true []).
  left. exists (NotARule (Some [Sample.bought 1%Z 5%Z])).
  split; [simpl; tauto | reflexivity].
Defined.

(** C9: No rule, no frame.  With [rules = []] the accumulator is never
    set.  After the filters have been checked and retrieved, the call
    with [compress = False] returns [None], and the call with
    [compress = True] raises the AttributeError of [None.groupby]; with a
    bad filter both raise the TypeError of the check.  In no case is a
    frame returned, flat or compressed, so no row per target customer. *)
Theorem no_rule_no_frame
        (data : dataset) (customer_list : list customer)
        (filters : option (list py_filter)) (t : list event) :
  collect data customer_list [] filters false t
  = (if forallb is_filter (filters_of filters)
     then (Returns PyNone, t ++ map FilterRetrieve (filters_of filters))
     else (Raises (TypeError "Filter must be `FilterRule`"), t))
  /\ collect data customer_list [] filters true t
     = (if forallb is_filter (filters_of filters)
        then (Raises (AttributeError "'NoneType' object has no attribute 'groupby'"),
              t ++ map FilterRetrieve (filters_of filters))
        else (Raises (TypeError "Filter must be `FilterRule`"), t))
  /\ (forall compress flat packed,
         fst (collect data customer_list [] filters compress t)
         <> Returns (Candidates flat)
         /\ fst (collect data customer_list [] filters compress t)
            <> Returns (Compressed packed)).
Proof.
  assert (Hf : collect data customer_list [] filters false t
               = (if forallb is_filter (filters_of filters)
                  then (Returns PyNone, t ++ map FilterRetrieve (filters_of filters))
                  else (Raises (TypeError "Filter must be `FilterRule`"), t))).
  { destruct (forallb is_filter (filters_of filters)) eqn:E.
    - rewrite collect_prefix by (unfold all_conform; now rewrite E).
      reflexivity.
    - now apply collect_bad_filter. }
  assert (Ht : collect data customer_list [] filters true t
               = (if forallb is_filter (filters_of filters)
                  then (Raises (AttributeError "'NoneType' object has no attribute 'groupby'"),
                        t ++ map FilterRetrieve (filters_of filters))
                  else (Raises (TypeError "Filter must be `FilterRule`"), t))).
  { destruct (forallb is_filter (filters_of filters)) eqn:E.
    - rewrite collect_prefix by (unfold all_conform; now rewrite E).
      reflexivity.
    - now apply collect_bad_filter. }
  split; [exact Hf|]. split; [exact Ht|].
  intros [|] flat packed; [rewrite Ht | rewrite Hf];
    destruct (forallb is_filter (filters_of filters)); simpl; split; discriminate.
Qed.




(** C7, as stated, fails.  A Personal rule and a cohort rule both give
    customer 1 the item 2^53 + 1, and the cohort rule has no item for
    customer 3.  Both rows are kept, but the item column, which holds a
    null, is a float64 column: the list of customer 1 is twice 2^53, and
    no row of the flat frame pairs the customer with 2^53 + 1. *)
Lemma duplicates_counterexample :
  fst (collect Sample.users [1%Z; 3%Z]
               [PersonalRetrieveRule [Sample.bought 1%Z 9007199254740993%Z];
                UserGroupRetrieveRule
                  ["age_band"]
                  [Sample.cohort_item "young" 9007199254740993%Z]]
               None true [])
  = Returns (Compressed [(1%Z, Some [Some 9007199254740992%Z;
                                     Some 9007199254740992%Z]);
                         (3%Z, Some [None])])
  /\ (exists flat,
         fst (collect Sample.users [1%Z; 3%Z]
                      [PersonalRetrieveRule [Sample.bought 1%Z 9007199254740993%Z];
                       UserGroupRetrieveRule
                         ["age_band"]
                         [Sample.cohort_item "young" 9007199254740993%Z]]
                      None false [])
         = Returns (Candidates flat)
         /\ pair_count 1%Z 9007199254740993%Z flat = 0
         /\ pair_count 1%Z 9007199254740992%Z flat = 2).
Proof.
  split; [vm_compute; reflexivity|].
  eexists. split; [vm_compute; reflexivity|]. split; vm_compute; reflexivity.
Qed.

(** C7, amended: No deduplication.  On well-typed arguments and at least one rule,
    the flat frame has as many rows as the tables of the rules have
    together, and the rows that pair a target customer with an item are
    all there, all rules and all repeats within a rule counted, the item
    being held as the item column holds it; the item list of the customer
    in the compressed frame holds every item as often as the flat frame
    pairs it with the customer.  When the item ids are numbers that a
    float64 column holds as they are, the flat frame has the pair in
    exactly as many rows as the tables of the rules have it. *)
Theorem duplicates_kept
        (data : dataset) (customer_list : list customer) (r : py_rule)
        (rules : list py_rule) (filters : option (list py_filter))
        (t : list event) (c : customer) (i : item) :
  all_conform (r :: rules) filters = true ->
  In c customer_list ->
  exists flat out,
    fst (collect data customer_list (r :: rules) filters false t)
    = Returns (Candidates flat)
    /\ fst (collect data customer_list (r :: rules) filters true t)
       = Returns (Compressed out)
    /\ length flat
       = list_sum (map (fun rule =>
                          length (contribution data customer_list
                                               (exclusion filters) rule))
                       (r :: rules))
    /\ list_sum (map (fun rule =>
                        pair_count c i
                                   (contribution data customer_list
                                                 (exclusion filters) rule))
                     (r :: rules))
       <= pair_count c (held (item_float (exclusion filters) (r :: rules) flat) i)
                     flat
    /\ (exact_items (r :: rules) = true ->
        pair_count c i flat
        = list_sum (map (fun rule =>
                           pair_count c i
                                      (contribution data customer_list
                                                    (exclusion filters) rule))
                        (r :: rules)))
    /\ (exists s, In (c, Some s) out)
    /\ forall s, In (c, s) out ->
                 exists l, s = Some l
                           /\ forall j, count_occ cell_item_dec l (Some j)
                                        = pair_count c j flat.
Proof.
  intros H Hc. eexists. eexists.
  rewrite (collect_flat _ _ _ _ _ _ H), (collect_compressed _ _ _ _ _ _ H).
  split; [reflexivity|]. split; [reflexivity|].
  assert (Hflat : combined data customer_list (exclusion filters) (r :: rules)
                  = as_stored false
                              (float_items (exclusion filters) (r :: rules))
                              (tables data customer_list (exclusion filters)
                                      (r :: rules))).
  { unfold combined.
    now rewrite (float_targets_nonempty c customer_list (r :: rules) Hc). }
  split; [|split; [|split; [|split]]].
  - rewrite Hflat, as_stored_length. apply length_flat_map.
  - rewrite item_float_combined, Hflat.
    rewrite <- (pair_count_flat_map c i). apply pair_count_stored.
  - intros He. rewrite combined_exact; [apply pair_count_flat_map | assumption|].
    intros ->. contradiction.
  - eexists. apply compressed_In. split; [exact Hc | reflexivity].
  - intros s Hs. apply compressed_In in Hs as [_ ->].
    eexists. split; [reflexivity|]. intros j. apply count_items_of.
Qed.

Lemma duplicates_kept_witness :
  all_conform [PersonalRetrieveRule [Sample.bought 1%Z 11%Z];
               PersonalRetrieveRule [Sample.bought 1%Z 11%Z]] None = true
  /\ In 1%Z [1%Z]
  /\ fst (collect Sample.users [1%Z]
                  [PersonalRetrieveRule [Sample.bought 1%Z 11%Z];
                   PersonalRetrieveRule [Sample.bought 1%Z 11%Z]] None false [])
     = Returns (Candidates [Sample.bought 1%Z 11%Z; Sample.bought 1%Z 11%Z])
  /\ fst (collect Sample.users [1%Z]
                  [PersonalRetrieveRule [Sample.bought 1%Z 11%Z];
                   PersonalRetrieveRule [Sample.bought 1%Z 11%Z]] None true [])
     = Returns (Compressed [(1%Z, Some [Some 11%Z; Some 11%Z])])
  /\ exists flat out,
      fst (collect Sample.users [1%Z]
                   [PersonalRetrieveRule [Sample.bought 1%Z 11%Z];
                    PersonalRetrieveRule [Sample.bought 1%Z 11%Z]] None false [])
      = Returns (Candidates flat)
      /\ fst (collect Sample.users [1%Z]
                      [PersonalRetrieveRule [Sample.bought 1%Z 11%Z];
                       PersonalRetrieveRule [Sample.bought 1%Z 11%Z]] None true [])
         = Returns (Compressed out)
      /\ length flat = 2
      /\ 2 <= pair_count
                1%Z
                (held (item_float
                         (exclusion None)
                         [PersonalRetrieveRule [Sample.bought 1%Z 11%Z];
                          PersonalRetrieveRule [Sample.bought 1%Z 11%Z]] flat)
                      11%Z)
                flat
      /\ (exact_items [PersonalRetrieveRule [Sample.bought 1%Z 11%Z];
                       PersonalRetrieveRule [Sample.bought 1%Z 11%Z]] = true ->
          pair_count 1%Z 11%Z flat = 2)
      /\ (exists s, In (1%Z, Some s) out)
      /\ forall s, In (1%Z, s) out ->
                   exists l, s = Some l
                             /\ forall j, count_occ cell_item_dec l (Some j)
                                          = pair_count 1%Z j flat.
Proof.
  split; [reflexivity|]. split; [simpl; tauto|].
  split; [reflexivity|]. split; [reflexivity|].
  exact (duplicates_kept
           Sample.users [1%Z] (PersonalRetrieveRule [Sample.bought 1%Z 11%Z])
           [PersonalRetrieveRule [Sample.bought 1%Z 11%Z]] None [] 1%Z 11%Z
           eq_refl (or_introl eq_refl)).
Defined.

(** C10: Repeated target customers.  [customer_list] is used as it is
    given.  A customer listed [m] times gets [m * k] rows from a Global
    rule with [k] surviving item rows, and the compressed frame has [m]
    rows for the customer, one per occurrence, all with the same item
    list. *)
Theorem repeated_target
        (data : dataset) (customer_list : list customer) (rules : list py_rule)
        (filters : option (list py_filter)) (table : list row)
        (tmp_df : option (list row)) (t : list event) (c : customer) :
  all_conform rules filters = true ->
  In (GlobalRetrieveRule table) rules ->
  (exists rows,
      normalize data customer_list (GlobalRetrieveRule table)
                (drop_removed (exclusion filters) table) tmp_df t
      = (Returns rows, t)
      /\ length (filter (customer_is c) rows)
         = count_occ Z.eq_dec customer_list c
           * length (drop_removed (exclusion filters) table))
  /\ (exists flat out,
         fst (collect data customer_list rules filters false t)
         = Returns (Candidates flat)
         /\ fst (collect data customer_list rules filters true t)
            = Returns (Compressed out)
         /\ filter (fun p => (fst p =? c)%Z) out
            = repeat (c, Some (map r_item (filter (customer_is c) flat)))
                     (count_occ Z.eq_dec customer_list c)).
Proof.
  intros H Hin. split.
  - eexists. split; [apply broadcast_returns | apply cross_rows_of].
  - assert (Hne : rules <> []) by (intros ->; contradiction).
    eexists. eexists. rewrite (collect_nonempty_flat _ _ _ _ _ H Hne).
    rewrite (collect_nonempty_compressed _ _ _ _ _ H Hne).
    split; [reflexivity|]. split; [reflexivity | apply compressed_rows_of].
Qed.

Lemma repeated_target_witness :
  all_conform [Sample.popular] None = true
  /\ In Sample.popular [Sample.popular]
  /\ fst (collect Sample.users [1%Z; 2%Z; 1%Z] [Sample.popular] None true [])
     = Returns (Compressed
                  [(1%Z, Some [Some 7%Z; Some 8%Z; Some 7%Z; Some 8%Z]);
                   (2%Z, Some [Some 7%Z; Some 8%Z]);
                   (1%Z, Some [Some 7%Z; Some 8%Z; Some 7%Z; Some 8%Z])])
  /\ (exists rows,
         normalize Sample.users [1%Z; 2%Z; 1%Z] Sample.popular
                   (drop_removed (exclusion None)
                                 [Sample.popular_item 7%Z; Sample.popular_item 8%Z])
                   None []
         = (Returns rows, [])
         /\ length (filter (customer_is 1%Z) rows)
            = count_occ Z.eq_dec [1%Z; 2%Z; 1%Z] 1%Z
              * length (drop_removed (exclusion None)
                                     [Sample.popular_item 7%Z; Sample.popular_item 8%Z]))
  /\ (exists flat out,
         fst (collect Sample.users [1%Z; 2%Z; 1%Z] [Sample.popular] None false [])
         = Returns (Candidates flat)
         /\ fst (collect Sample.users [1%Z; 2%Z; 1%Z] [Sample.popular] None true [])
            = Returns (Compressed out)
         /\ filter (fun p => (fst p =? 1)%Z) out
            = repeat (1%Z, Some (map r_item (filter (customer_is 1%Z) flat)))
                     (count_occ Z.eq_dec [1%Z; 2%Z; 1%Z] 1%Z)).
Proof.
  split; [reflexivity|]. split; [simpl; tauto|]. split; [reflexivity|].
  exact (repeated_target
           Sample.users [1%Z; 2%Z; 1%Z] [Sample.popular] None
           [Sample.popular_item 7%Z; Sample.popular_item 8%Z] None [] 1%Z
           eq_refl (or_introl eq_refl)).
Defined.

(** C1, as stated, fails.  Customer 7 is not in the user table, so the
    cohort rule proposes no item for it: the only row it gets is the miss
    of the left join, whose item is null.  The compressed frame then gives
    customer 7 the one-entry list holding that null, not the empty list. *)
Lemma empty_default_counterexample :
  fst (collect Sample.users [7%Z] [Sample.by_age] None false [])
  = Returns (Candidates [mkRow (Some 7%Z) None None None []])
  /\ fst (collect Sample.users [7%Z] [Sample.by_age] None true [])
     = Returns (Compressed [(7%Z, Some [None])])
  /\ fst (collect Sample.users [7%Z] [Sample.by_age] None true [])
     <> Returns (Compressed [(7%Z, Some [])]).
Proof.
  split; [reflexivity|]. split; [reflexivity|]. discriminate.
Qed.

(** C1, amended: Coverage and empty default.  On well-typed arguments and
    at least one rule, the compressed frame has one row per entry of
    [customer_list], in its order; no cell is null: a customer's cell is
    the list of the item cells of its rows in the flat frame; and a
    customer with no row in the flat frame has the empty list. *)
Theorem compressed_coverage
        (data : dataset) (customer_list : list customer) (r : py_rule)
        (rules : list py_rule) (filters : option (list py_filter))
        (t : list event) :
  all_conform (r :: rules) filters = true ->
  exists flat out,
    fst (collect data customer_list (r :: rules) filters false t)
    = Returns (Candidates flat)
    /\ fst (collect data customer_list (r :: rules) filters true t)
       = Returns (Compressed out)
    /\ map fst out = customer_list
    /\ (forall c s, In (c, s) out ->
                    s = Some (map r_item (filter (customer_is c) flat)))
    /\ (forall c, In c customer_list ->
                  (forall x, In x flat -> r_customer x <> Some c) ->
                  In (c, Some []) out /\ forall s, In (c, s) out -> s = Some []).
Proof.
  intros H. eexists. eexists.
  rewrite (collect_flat _ _ _ _ _ _ H), (collect_compressed _ _ _ _ _ _ H).
  split; [reflexivity|]. split; [reflexivity|].
  split; [apply compressed_customers|].
  split.
  - intros c s Hs. now apply compressed_In in Hs as [_ ->].
  - intros c Hc Hno.
    assert (E : items_of c (combined data customer_list (exclusion filters) (r :: rules))
                = []).
    { apply items_of_absent. destruct (has_rows c _) eqn:Hr; [|reflexivity].
      apply has_rows_In, customers_of_In in Hr as [x [Hx Hcx]].
      now destruct (Hno x Hx). }
    split.
    + apply compressed_In. split; [assumption | now rewrite E].
    + intros s Hs. apply compressed_In in Hs as [_ ->]. now rewrite E.
Qed.

Lemma compressed_coverage_witness :
  all_conform [PersonalRetrieveRule [Sample.bought 1%Z 5%Z]] None = true
  /\ fst (collect Sample.users [3%Z; 1%Z]
                  [PersonalRetrieveRule [Sample.bought 1%Z 5%Z]] None true [])
     = Returns (Compressed [(3%Z, Some []); (1%Z, Some [Some 5%Z])])
  /\ exists flat out,
      fst (collect Sample.users [3%Z; 1%Z]
                   [PersonalRetrieveRule [Sample.bought 1%Z 5%Z]] None false [])
      = Returns (Candidates flat)
      /\ fst (collect Sample.users [3%Z; 1%Z]
                      [PersonalRetrieveRule [Sample.bought 1%Z 5%Z]] None true [])
         = Returns (Compressed out)
      /\ map fst out = [3%Z; 1%Z]
      /\ (forall c s, In (c, s) out ->
                      s = Some (map r_item (filter (customer_is c) flat)))
      /\ (forall c, In c [3%Z; 1%Z] ->
                    (forall x, In x flat -> r_customer x <> Some c) ->
                    In (c, Some []) out /\ forall s, In (c, s) out -> s = Some []).
Proof.
  split; [reflexivity|]. split; [reflexivity|].
  exact (compressed_coverage
           Sample.users [3%Z; 1%Z] (PersonalRetrieveRule [Sample.bought 1%Z 5%Z])
           [] None [] eq_refl).
Defined.

(** C2, as stated, fails.  The cohort rule has an item for the old only;
    customer 3 (age band unknown) matches no item row.  Its null row is in
    the flat frame, which is the frame that is grouped: nothing filters it
    out, and the item list of customer 3 holds a null entry. *)
Lemma cohort_miss_counterexample :
  fst (collect Sample.users [2%Z; 3%Z]
               [UserGroupRetrieveRule ["age_band"] [Sample.cohort_item "old" 102%Z]]
               None false [])
  = Returns (Candidates
               [mkRow (Some 2%Z) (Some 102%Z) (Some (1 # 2)%Q) (Some "by_age") [];
                mkRow (Some 3%Z) None None None []])
  /\ fst (collect Sample.users [2%Z; 3%Z]
                  [UserGroupRetrieveRule ["age_band"] [Sample.cohort_item "old" 102%Z]]
                  None true [])
     = Returns (Compressed [(2%Z, Some [Some 102%Z]); (3%Z, Some [None])])
  /\ fst (collect Sample.users [2%Z; 3%Z]
                  [UserGroupRetrieveRule ["age_band"] [Sample.cohort_item "old" 102%Z]]
                  None true [])
     <> Returns (Compressed [(2%Z, Some [Some 102%Z]); (3%Z, Some [])]).
Proof.
  split; [reflexivity|]. split; [reflexivity|]. discriminate.
Qed.

(** C2, amended: Misses of the cohort join are kept.  For a UserGroup rule
    among well-typed arguments and a target customer whose cohort is the
    cohort of none of the rule's surviving item rows, the rule's table has
    at least one row for the customer, and every such row has a null item,
    score and method.  These rows are not filtered out: they are in the
    flat frame, and the customer's item list in the compressed frame holds
    a null entry. *)
Theorem cohort_miss_kept
        (data : dataset) (customer_list : list customer) (rules : list py_rule)
        (filters : option (list py_filter)) (cat_cols : list string)
        (table : list row) (tmp_df : option (list row)) (t : list event)
        (c : customer) :
  all_conform rules filters = true ->
  In (UserGroupRetrieveRule cat_cols table) rules ->
  In c customer_list ->
  misses data cat_cols (drop_removed (exclusion filters) table) c = true ->
  (exists rows,
      normalize data customer_list (UserGroupRetrieveRule cat_cols table)
                (drop_removed (exclusion filters) table) tmp_df t
      = (Returns rows, t)
      /\ (exists x, In x rows /\ r_customer x = Some c)
      /\ (forall x, In x rows -> r_customer x = Some c ->
                    r_item x = None /\ r_score x = None /\ r_method x = None))
  /\ (exists flat out,
         fst (collect data customer_list rules filters false t)
         = Returns (Candidates flat)
         /\ fst (collect data customer_list rules filters true t)
            = Returns (Compressed out)
         /\ (exists x, In x flat /\ r_customer x = Some c /\ r_item x = None)
         /\ (exists s, In (c, Some s) out)
         /\ (forall s, In (c, Some s) out -> In None s)).
Proof.
  intros H Hrule Hc Hmiss.
  set (items := drop_removed (exclusion filters) table) in *.
  assert (Hnull : In (null_row c) (group_join data customer_list cat_cols items)).
  { apply group_join_null; [|reflexivity]. apply in_flat_map. exists c.
    split; [assumption|]. rewrite (group_rows_miss _ _ _ _ Hmiss).
    destruct (cohorts data cat_cols c) as [|p ps] eqn:E.
    - now destruct (cohorts_nonempty data cat_cols c).
    - now left. }
  split.
  - exists (group_join data customer_list cat_cols items).
    split; [reflexivity|]. split.
    + exists (null_row c). now split.
    + intros x Hx Hcx. rewrite group_join_by_customer in Hx.
      apply as_stored_In in Hx as [y [Hy ->]].
      rewrite stored_row_customer in Hcx.
      apply in_flat_map in Hy as [c' [Hc' Hy]].
      pose proof (group_rows_customer _ _ _ _ _ Hy) as Hc''.
      rewrite Hcx in Hc''. injection Hc'' as <-.
      rewrite (group_rows_miss _ _ _ _ Hmiss) in Hy.
      apply in_map_iff in Hy as [p [<- _]].
      now rewrite (stored_row_of_null _ (null_row c) eq_refl).
  - assert (Hne : rules <> []) by (intros ->; contradiction).
    assert (Hflat : In (null_row c)
                       (combined data customer_list (exclusion filters) rules)).
    { pose proof (combined_keeps data customer_list (exclusion filters) rules
                                 (UserGroupRetrieveRule cat_cols table)
                                 (null_row c) Hrule Hnull) as Hk.
      rewrite (float_targets_nonempty c customer_list rules Hc) in Hk.
      now rewrite (stored_row_of_null _ (null_row c) eq_refl) in Hk. }
    eexists. eexists. rewrite (collect_nonempty_flat _ _ _ _ _ H Hne).
    rewrite (collect_nonempty_compressed _ _ _ _ _ H Hne).
    split; [reflexivity|]. split; [reflexivity|]. split.
    + exists (null_row c). now split.
    + split.
      * eexists. apply compressed_In. split; [exact Hc | reflexivity].
      * intros s Hs. apply compressed_In in Hs as [_ [= ->]].
        apply items_of_In. exists (null_row c). now split.
Qed.

Lemma cohort_miss_kept_witness :
  all_conform [Sample.by_age] None = true
  /\ In Sample.by_age [Sample.by_age]
  /\ In 3%Z [1%Z; 2%Z; 3%Z]
  /\ misses Sample.users ["age_band"]
            (drop_removed (exclusion None)
                          [Sample.cohort_item "young" 101%Z;
                           Sample.cohort_item "old" 102%Z]) 3%Z = true
  /\ (exists flat out,
         fst (collect Sample.users [1%Z; 2%Z; 3%Z] [Sample.by_age] None false [])
         = Returns (Candidates flat)
         /\ fst (collect Sample.users [1%Z; 2%Z; 3%Z] [Sample.by_age] None true [])
            = Returns (Compressed out)
         /\ (exists x, In x flat /\ r_customer x = Some 3%Z /\ r_item x = None)
         /\ (exists s, In (3%Z, Some s) out)
         /\ (forall s, In (3%Z, Some s) out -> In None s)).
Proof.
  split; [reflexivity|]. split; [simpl; tauto|]. split; [simpl; tauto|].
  split; [reflexivity|].
  exact (proj2 (cohort_miss_kept
                  Sample.users [1%Z; 2%Z; 3%Z] [Sample.by_age] None ["age_band"]
                  [Sample.cohort_item "young" 101%Z; Sample.cohort_item "old" 102%Z]
                  None [] 3%Z eq_refl (or_introl eq_refl)
                  (or_intror (or_intror (or_introl eq_refl))) eq_refl)).
Defined.



(** ** Further properties of [collect] *)

Module MoreFacts.
Import Table TableFacts RuleCollector Summary CollectorFacts CompressFacts
       JoinFacts CountFacts.

Lemma isin_same_members (c : cell item) (rm1 rm2 : list item) :
  (forall i, In i rm1 <-> In i rm2) -> isin c rm1 = isin c rm2.
Proof.
  intros H. destruct c as [i|]; [|reflexivity]. simpl.
  apply eq_true_iff_eq. rewrite !existsb_exists. split.
  - intros [x [Hx He]]. exists x. split; [now apply H | assumption].
  - intros [x [Hx He]]. exists x. split; [now apply H | assumption].
Qed.

Lemma drop_removed_same_members (rm1 rm2 : list item) (items : list row) :
  (forall i, In i rm1 <-> In i rm2) ->
  drop_removed rm1 items = drop_removed rm2 items.
Proof.
  intros H. unfold drop_removed. apply filter_ext. intros r.
  now rewrite (isin_same_members _ _ _ H).
Qed.

Lemma combined_same_members data customer_list rm1 rm2 rules :
  (forall i, In i rm1 <-> In i rm2) ->
  combined data customer_list rm1 rules = combined data customer_list rm2 rules.
Proof.
  intros H. unfold combined, tables.
  assert (E1 : float_items rm1 rules = float_items rm2 rules).
  { unfold float_items. induction rules as [|r rules IH]; simpl; [reflexivity|].
    now rewrite IH, (drop_removed_same_members _ _ (table_of r) H). }
  assert (E2 : flat_map (contribution data customer_list rm1) rules
               = flat_map (contribution data customer_list rm2) rules).
  { apply flat_map_ext. intros [tb|tb|cols tb|o]; simpl;
      try rewrite (drop_removed_same_members _ _ tb H); reflexivity. }
  now rewrite E1, E2.
Qed.

Lemma items_of_targets (c : customer) (customer_list : list customer)
      (df : list row) :
  In c customer_list ->
  items_of c (filter (targets customer_list) df) = items_of c df.
Proof.
  intros Hc. unfold items_of. f_equal.
  induction df as [|r df IH]; simpl; [reflexivity|].
  destruct (customer_is c r) eqn:E.
  - assert (Ht : targets customer_list r = true).
    { apply customer_is_true in E. unfold targets. rewrite E.
      apply existsb_exists. exists c. split; [assumption | apply Z.eqb_refl]. }
    rewrite Ht. simpl. now rewrite E, IH.
  - destruct (targets customer_list r); simpl; [now rewrite E|]; exact IH.
Qed.

Lemma left_merge_one {L R} (matches : L -> R -> bool) (l : L) (right : list R) :
  length (filter (matches l) right) <= 1 ->
  exists o, left_merge matches [l] right = [(l, o)].
Proof.
  intros H. unfold left_merge. simpl.
  destruct (filter (matches l) right) as [|m [|m' ms]]; simpl in *.
  - now exists None.
  - now exists (Some m).
  - lia.
Qed.

Lemma group_rows_nonempty data cat_cols items c :
  exists x, In x (group_rows data cat_cols items c).
Proof.
  destruct (cohorts data cat_cols c) as [|p ps] eqn:E.
  - now destruct (cohorts_nonempty data cat_cols c).
  - destruct (left_merge_covers (cohort_matches cat_cols) (p :: ps) items p
                                (or_introl eq_refl)) as [o Ho].
    exists (project (p, o)). unfold group_rows. rewrite E. now apply in_map.
Qed.

Lemma flat_map_length_ge {A B} (f : A -> list B) (l : list A) :
  (forall a, 1 <= length (f a)) -> length l <= length (flat_map f l).
Proof.
  intros H. induction l as [|a l IH]; simpl; [lia|].
  rewrite length_app. specialize (H a). lia.
Qed.


End MoreFacts.

Import MoreFacts.



(** X2: The [retrieve()] calls of a run.  On well-typed arguments a run
    calls [retrieve()] once on every filter, in the order of [filters],
    and then once on every rule, in the order of [rules], whatever
    [compress] is and also when the run ends in the AttributeError of an
    empty [rules]. *)
Theorem retrieve_once_in_order
        (data : dataset) (customer_list : list customer) (rules : list py_rule)
        (filters : option (list py_filter)) (compress : bool) (t : list event) :
  all_conform rules filters = true ->
  snd (collect data customer_list rules filters compress t)
  = t ++ map FilterRetrieve (filters_of filters) ++ map RuleRetrieve rules.
Proof.
  intros H. destruct rules as [|r rules].
  - rewrite (collect_prefix _ _ _ _ _ _ H). simpl.
    destruct compress; simpl; now rewrite app_nil_r.
  - destruct compress.
    + now rewrite (collect_compressed _ _ _ _ _ _ H).
    + now rewrite (collect_flat _ _ _ _ _ _ H).
Qed.

Lemma retrieve_once_in_order_witness :
  all_conform [Sample.popular; Sample.by_age] (Some [FilterRule [8%Z]]) = true
  /\ snd (collect Sample.users [1%Z] [Sample.popular; Sample.by_age]
                  (Some [FilterRule [8%Z]]) true [])
     = [FilterRetrieve (FilterRule [8%Z]);
        RuleRetrieve Sample.popular; RuleRetrieve Sample.by_age].
Proof.
  split; [reflexivity|].
  exact (retrieve_once_in_order
           Sample.users [1%Z] [Sample.popular; Sample.by_age]
           (Some [FilterRule [8%Z]]) true [] eq_refl).
Defined.

(** X3: The removed items act as a set.  Two lists of filters that list the
    same items, in whatever order, split over whatever filters and however
    often repeated, give the same result. *)
Theorem exclusion_is_a_set
        (data : dataset) (customer_list : list customer) (rules : list py_rule)
        (filters1 filters2 : option (list py_filter)) (compress : bool)
        (t : list event) :
  all_conform rules filters1 = true ->
  all_conform rules filters2 = true ->
  (forall i, In i (exclusion filters1) <-> In i (exclusion filters2)) ->
  fst (collect data customer_list rules filters1 compress t)
  = fst (collect data customer_list rules filters2 compress t).
Proof.
  intros H1 H2 Hsame. destruct rules as [|r rules].
  - rewrite (collect_prefix _ _ _ _ _ _ H1), (collect_prefix _ _ _ _ _ _ H2).
    now destruct compress.
  - destruct compress.
    + rewrite (collect_compressed _ _ _ _ _ _ H1), (collect_compressed _ _ _ _ _ _ H2).
      cbn [fst]. now rewrite (combined_same_members _ _ _ _ _ Hsame).
    + rewrite (collect_flat _ _ _ _ _ _ H1), (collect_flat _ _ _ _ _ _ H2).
      cbn [fst]. now rewrite (combined_same_members _ _ _ _ _ Hsame).
Qed.

Lemma exclusion_is_a_set_witness :
  all_conform [Sample.popular] (Some [FilterRule [8%Z; 7%Z; 8%Z]]) = true
  /\ all_conform [Sample.popular] (Some [FilterRule [7%Z]; FilterRule [8%Z]]) = true
  /\ fst (collect Sample.users [1%Z] [Sample.popular]
                  (Some [FilterRule [8%Z; 7%Z; 8%Z]]) true [])
     = fst (collect Sample.users [1%Z] [Sample.popular]
                    (Some [FilterRule [7%Z]; FilterRule [8%Z]]) true []).
Proof.
  split; [reflexivity|]. split; [reflexivity|].
  apply (exclusion_is_a_set
           Sample.users [1%Z] [Sample.popular]
           (Some [FilterRule [8%Z; 7%Z; 8%Z]])
           (Some [FilterRule [7%Z]; FilterRule [8%Z]]) true [] eq_refl eq_refl).
  intros i. simpl. tauto.
Defined.

(** X4: The cohort join covers the targets.  The table of a UserGroup rule
    has a row for a customer exactly when the customer is a target: every
    target gets at least one row, matched or null, whatever the user table
    and the item rows are, and no other customer gets one.  So the table
    has at least as many rows as there are targets. *)
Theorem cohort_rule_covers_targets
        (data : dataset) (customer_list : list customer) (rm_items : list item)
        (cat_cols : list string) (table : list row)
        (tmp_df : option (list row)) (t : list event) :
  exists rows,
    normalize data customer_list (UserGroupRetrieveRule cat_cols table)
              (drop_removed rm_items table) tmp_df t
    = (Returns rows, t)
    /\ (forall c, In c customer_list
                  <-> exists x, In x rows /\ r_customer x = Some c)
    /\ (forall x, In x rows -> r_customer x <> None)
    /\ length customer_list <= length rows.
Proof.
  exists (group_join data customer_list cat_cols (drop_removed rm_items table)).
  split; [reflexivity|]. rewrite group_join_by_customer. split; [|split].
  - intros c. split.
    + intros Hc.
      destruct (group_rows_nonempty data cat_cols (drop_removed rm_items table) c)
        as [x Hx].
      eexists. split.
      * apply as_stored_In. exists x. split; [|reflexivity].
        apply in_flat_map. now exists c.
      * rewrite stored_row_customer.
        now apply (group_rows_customer _ _ _ _ _ Hx).
    + intros [x [Hx Hcx]]. apply as_stored_In in Hx as [y [Hy ->]].
      rewrite stored_row_customer in Hcx.
      apply in_flat_map in Hy as [c' [Hc' Hy]].
      pose proof (group_rows_customer _ _ _ _ _ Hy) as E.
      rewrite Hcx in E. now injection E as <-.
  - intros x Hx. apply as_stored_In in Hx as [y [Hy ->]].
    rewrite stored_row_customer.
    apply in_flat_map in Hy as [c' [Hc' Hy]].
    now rewrite (group_rows_customer _ _ _ _ _ Hy).
  - rewrite as_stored_length. apply flat_map_length_ge. intros c.
    destruct (group_rows_nonempty data cat_cols (drop_removed rm_items table) c)
      as [x Hx].
    destruct (group_rows data cat_cols (drop_removed rm_items table) c);
      [contradiction | simpl; lia].
Qed.

(** X5: One row per target.  When every target customer is in at most one
    row of the user table and its cohort is the cohort of at most one
    surviving item row, the table of a UserGroup rule has exactly one row
    per entry of [customer_list], in its order. *)
Theorem cohort_rule_one_row_each
        (data : dataset) (customer_list : list customer) (rm_items : list item)
        (cat_cols : list string) (table : list row)
        (tmp_df : option (list row)) (t : list event) :
  one_row_each data cat_cols (drop_removed rm_items table) customer_list = true ->
  exists rows,
    normalize data customer_list (UserGroupRetrieveRule cat_cols table)
              (drop_removed rm_items table) tmp_df t
    = (Returns rows, t)
    /\ map r_customer rows = map Some customer_list.
Proof.
  intros H.
  exists (group_join data customer_list cat_cols (drop_removed rm_items table)).
  split; [reflexivity|]. rewrite group_join_by_customer, as_stored_customers.
  unfold one_row_each in H.
  induction customer_list as [|c cs IH]; [reflexivity|].
  simpl in H. apply andb_prop in H as [Hc Hcs].
  apply andb_prop in Hc as [Hu Hi]. apply Nat.leb_le in Hu.
  simpl. rewrite map_app, (IH Hcs). f_equal.
  unfold group_rows. unfold cohorts in *.
  destruct (left_merge_one customer_matches c (user_table data cat_cols) Hu)
    as [o Ho].
  rewrite Ho in *. simpl in Hi. apply andb_prop in Hi as [Hi _].
  apply Nat.leb_le in Hi.
  destruct (left_merge_one (cohort_matches cat_cols) (c, o)
                           (drop_removed rm_items table) Hi) as [o' Ho'].
  rewrite Ho'. simpl. unfold project. now destruct o'.
Qed.

Lemma cohort_rule_one_row_each_witness :
  one_row_each Sample.users ["age_band"]
               (drop_removed [] [Sample.cohort_item "young" 101%Z;
                                 Sample.cohort_item "old" 102%Z])
               [3%Z; 1%Z; 7%Z; 1%Z] = true
  /\ exists rows,
      normalize Sample.users [3%Z; 1%Z; 7%Z; 1%Z] Sample.by_age
                (drop_removed [] [Sample.cohort_item "young" 101%Z;
                                  Sample.cohort_item "old" 102%Z]) None []
      = (Returns rows, [])
      /\ map r_customer rows = map Some [3%Z; 1%Z; 7%Z; 1%Z].
Proof.
  split; [reflexivity|].
  exact (cohort_rule_one_row_each
           Sample.users [3%Z; 1%Z; 7%Z; 1%Z] [] ["age_band"]
           [Sample.cohort_item "young" 101%Z; Sample.cohort_item "old" 102%Z]
           None [] eq_refl).
Defined.

(** X6: Compression reads the rows of the targets only.  The compression
    step always returns a frame, and it returns the same frame when the
    rows whose customer is null or is none of the targets are taken away
    first: such rows of a Personal rule reach no item list. *)
Theorem compress_reads_target_rows
        (customer_list : list customer) (pred_df : list row) (t : list event) :
  exists out,
    compress_df customer_list pred_df t = (Returns (Compressed out), t)
    /\ compress_df customer_list (filter (targets customer_list) pred_df) t
       = (Returns (Compressed out), t).
Proof.
  eexists. rewrite !compress_df_returns. split; [reflexivity|].
  unfold compressed. do 3 f_equal. apply map_ext_in. intros c Hc.
  now rewrite (items_of_targets c customer_list pred_df Hc).
Qed.



Module TallyFacts.
Import Table TableFacts RuleCollector Summary CollectorFacts CompressFacts
       JoinFacts CountFacts.

Lemma targets_cons (c : customer) (cs : list customer) (r : row) :
  targets (c :: cs) r = customer_is c r || targets cs r.
Proof.
  unfold targets, customer_is. destruct (r_customer r) as [c'|]; [|reflexivity].
  simpl. now rewrite (Z.eqb_sym c' c).
Qed.

Lemma targets_of_customer (c : customer) (cs : list customer) (r : row) :
  customer_is c r = true -> targets cs r = true -> In c cs.
Proof.
  intros Hc Ht. apply customer_is_true in Hc. unfold targets in Ht.
  rewrite Hc in Ht. apply existsb_exists in Ht as [x [Hx He]].
  apply Z.eqb_eq in He. now subst.
Qed.

Lemma filter_either_length {A} (f g : A -> bool) (l : list A) :
  (forall x, f x = true -> g x = true -> False) ->
  length (filter (fun x => f x || g x) l)
  = length (filter f l) + length (filter g l).
Proof.
  intros Hex. induction l as [|x l IH]; simpl; [reflexivity|].
  destruct (f x) eqn:Ef, (g x) eqn:Eg; simpl; rewrite IH; try lia.
  destruct (Hex x Ef Eg).
Qed.

Lemma rows_of_targets (customer_list : list customer) (df : list row) :
  NoDup customer_list ->
  list_sum (map (fun c => length (items_of c df)) customer_list)
  = length (filter (targets customer_list) df).
Proof.
  induction 1 as [|c cs Hc Hnd IH]; simpl.
  - induction df as [|r df IHdf]; simpl; [reflexivity|].
    unfold targets at 1. now destruct (r_customer r).
  - rewrite IH. unfold items_of. rewrite length_map.
    rewrite (filter_ext _ _ (targets_cons c cs)).
    rewrite filter_either_length; [reflexivity|].
    intros r H1 H2. apply Hc. exact (targets_of_customer c cs r H1 H2).
Qed.

End TallyFacts.

Import TallyFacts.

(** X8: Compression keeps count.  On well-typed arguments with at least
    one rule and a [customer_list] without repeats, the item lists of the
    compressed frame have together as many entries as the flat frame has
    rows of target customers: no such row is lost and none is made up. *)
Theorem compression_keeps_count
        (data : dataset) (customer_list : list customer) (r : py_rule)
        (rules : list py_rule) (filters : option (list py_filter))
        (t : list event) :
  all_conform (r :: rules) filters = true ->
  NoDup customer_list ->
  exists flat out,
    fst (collect data customer_list (r :: rules) filters false t)
    = Returns (Candidates flat)
    /\ fst (collect data customer_list (r :: rules) filters true t)
       = Returns (Compressed out)
    /\ list_sum (map (fun p => match snd p with
                               | Some l => length l
                               | None => 0
                               end) out)
       = length (filter (targets customer_list) flat).
Proof.
  intros H Hnd. eexists. eexists.
  rewrite (collect_flat _ _ _ _ _ _ H), (collect_compressed _ _ _ _ _ _ H).
  split; [reflexivity|]. split; [reflexivity|].
  unfold compressed. rewrite map_map. cbn [snd].
  now apply rows_of_targets.
Qed.

Lemma compression_keeps_count_witness :
  all_conform [Sample.popular; PersonalRetrieveRule [Sample.bought 9%Z 5%Z];
               Sample.by_age] None = true
  /\ NoDup [3%Z; 1%Z]
  /\ exists flat out,
      fst (collect Sample.users [3%Z; 1%Z]
                   [Sample.popular; PersonalRetrieveRule [Sample.bought 9%Z 5%Z];
                    Sample.by_age] None false [])
      = Returns (Candidates flat)
      /\ fst (collect Sample.users [3%Z; 1%Z]
                      [Sample.popular; PersonalRetrieveRule [Sample.bought 9%Z 5%Z];
                       Sample.by_age] None true [])
         = Returns (Compressed out)
      /\ list_sum (map (fun p => match snd p with
                                 | Some l => length l
                                 | None => 0
                                 end) out)
         = length (filter (targets [3%Z; 1%Z]) flat).
Proof.
  assert (Hnd : NoDup [3%Z; 1%Z]).
  { constructor; [simpl; intros [E|[]]; discriminate|].
    constructor; [simpl; tauto | constructor]. }
  split; [reflexivity|]. split; [exact Hnd|].
  exact (compression_keeps_count
           Sample.users [3%Z; 1%Z] Sample.popular
           [PersonalRetrieveRule [Sample.bought 9%Z 5%Z]; Sample.by_age]
           None [] eq_refl Hnd).
Defined.


